(** * Microsoft Docs MCP server: a shallow embedding of [server.py]

    The development follows the layout of the Python module: the string
    helpers the code relies on, the Python values that travel through
    it, the outbound HTTP session as an explicit world, the fetch client
    ([MicrosoftDocsClient]) and the tool functions built on top of it. *)

From Stdlib Require Import ZArith Ascii String List Lia Bool.
From stdpp Require Import base option list gmap strings.

Open Scope string_scope.
Open Scope list_scope.
Open Scope Z_scope.

#[local] Set Warnings "-register-all".

(** ** Python strings

    A [str] is modelled by [string]; a character stands for the code
    point with the same number, so the model covers the code points
    0..255.  On that range every method used by [server.py] acts
    character by character. *)
Module PyStr.

Definition len (s : string) : nat := String.length s.

Fixpoint map_chars (f : ascii → ascii) (s : string) : string :=
  match s with
  | EmptyString => EmptyString
  | String c r => String (f c) (map_chars f r)
  end.

(** [str.lower] on one code point: A-Z and the accented capitals
    U+00C0..U+00DE (the multiplication sign U+00D7 apart) move up by
    32, everything else stays. *)
Definition lower_char (c : ascii) : ascii :=
  let n := N_of_ascii c in
  if ((65 <=? n) && (n <=? 90) || (192 <=? n) && (n <=? 222) && negb (n =? 215))%N
  then ascii_of_N (n + 32) else c.

Definition lower (s : string) : string := map_chars lower_char s.

(** [s.replace(a, b)] for one-character [a] and [b]. *)
Definition replace_char (a b : ascii) (s : string) : string :=
  map_chars (λ c, if Ascii.eqb c a then b else c) s.

(** [s.startswith(p)] *)
Fixpoint startswith (s p : string) : bool :=
  match p, s with
  | EmptyString, _ => true
  | String _ _, EmptyString => false
  | String a p', String b s' => Ascii.eqb a b && startswith s' p'
  end.

(** [sub in s] *)
Fixpoint contains (sub s : string) : bool :=
  startswith s sub ||
  match s with
  | EmptyString => false
  | String _ r => contains sub r
  end.

(** [s[:n]] for [n >= 0] *)
Fixpoint take (n : nat) (s : string) : string :=
  match n, s with
  | O, _ => EmptyString
  | _, EmptyString => EmptyString
  | S k, String c r => String c (take k r)
  end.

(** [str.isspace] on one code point of the modelled range. *)
Definition is_space (c : ascii) : bool :=
  let n := N_of_ascii c in
  ((9 <=? n) && (n <=? 13) || (28 <=? n) && (n <=? 32) || (n =? 133) || (n =? 160))%N.

Fixpoint lstrip (s : string) : string :=
  match s with
  | EmptyString => EmptyString
  | String c r => if is_space c then lstrip r else s
  end.

Fixpoint rstrip (s : string) : string :=
  match s with
  | EmptyString => EmptyString
  | String c r =>
      match rstrip r with
      | EmptyString => if is_space c then EmptyString else String c EmptyString
      | r' => String c r'
      end
  end.

(** [s.strip()] *)
Definition strip (s : string) : string := rstrip (lstrip s).

(** [sep.join(parts)] *)
Fixpoint join (sep : string) (parts : list string) : string :=
  match parts with
  | [] => EmptyString
  | [p] => p
  | p :: rest => p +:+ sep +:+ join sep rest
  end.

(** Decimal digits of a natural number, most significant first; the
    fuel bounds the number of digits produced. *)
Fixpoint digits (fuel : nat) (n : N) (acc : string) : string :=
  match fuel with
  | O => acc
  | S f =>
      let acc' := String (ascii_of_N (48 + n mod 10)) acc in
      if (n / 10 =? 0)%N then acc' else digits f (n / 10)%N acc'
  end.

(** [str(i)] for an [int]. *)
Definition of_int (i : Z) : string :=
  let n := Z.to_N (Z.abs i) in
  let d := digits (S (N.to_nat (N.log2 n))) n EmptyString in
  if (i <? 0)%Z then String "-" d else d.

End PyStr.

(** ** Python values

    What [json.loads] produces and what the tool functions put into
    their result dictionaries.  Floating-point numbers play no part in
    any decision of the module and are left out. *)
Inductive value : Type :=
| VNone
| VBool (b : bool)
| VInt (i : Z)
| VStr (s : string)
| VList (l : list value)
| VDict (d : gmap string value).

(** An exception is represented by [str(e)]. *)
Definition exn : Type := string.

(** A computation that may raise. *)
Definition result (A : Type) : Type := exn + A.

Definition type_name (v : value) : string :=
  match v with
  | VNone => "NoneType"
  | VBool _ => "bool"
  | VInt _ => "int"
  | VStr _ => "str"
  | VList _ => "list"
  | VDict _ => "dict"
  end.

Definition attribute_error (v : value) (attr : string) : exn :=
  "'" +:+ type_name v +:+ "' object has no attribute '" +:+ attr +:+ "'".

Definition not_iterable (v : value) : exn :=
  "'" +:+ type_name v +:+ "' object is not iterable".

(** [v.get(key, dflt)]: only a [dict] has the method. *)
Definition py_get (v : value) (key : string) (dflt : value) : result value :=
  match v with
  | VDict d => inr (default dflt (d !! key))
  | _ => inl (attribute_error v "get")
  end.

(** [v.lower()]: only a [str] has the method. *)
Definition py_lower (v : value) : result string :=
  match v with
  | VStr s => inr (PyStr.lower s)
  | _ => inl (attribute_error v "lower")
  end.

Definition chars (s : string) : list value :=
  (λ c, VStr (String c EmptyString)) <$> list_ascii_of_string s.

(** The elements a [for] loop sees.  A [dict] yields its keys (the
    loops of this module fail on the first of them, so their order is
    of no account), a [str] its characters. *)
Definition py_iter (v : value) : result (list value) :=
  match v with
  | VList l => inr l
  | VStr s => inr (chars s)
  | VDict d => inr (VStr <$> (map_to_list d).*1)
  | _ => inl (not_iterable v)
  end.

(** Truth value of a [str]. *)
Definition truthy (s : string) : bool := negb (String.eqb s "").

(** [l[:k]]: a negative [k] counts from the end of the list. *)
Definition slice_to {A} (l : list A) (k : Z) : list A :=
  if k <? 0 then take (Z.to_nat (Z.of_nat (length l) + k)) l
  else take (Z.to_nat k) l.

(** ** The document tree built by BeautifulSoup

    A parsed page is a forest of nodes.  A string node carries the class
    the parser gave it; an element carries its name, its attributes and
    its contents. *)
Inductive string_class : Type :=
| NavigableString | CData | Comment | Declaration | Doctype
| ProcessingInstruction | Stylesheet | Script | TemplateString
| RubyTextString | RubyParenthesisString.

#[global] Instance string_class_eq_dec : EqDecision string_class.
Proof. solve_decision. Defined.

(** An attribute value: [class] and the other multi-valued attributes
    are lists of tokens, the rest are plain strings. *)
Inductive attr : Type :=
| AStr (s : string)
| AList (l : list string).

#[global] Instance attr_eq_dec : EqDecision attr.
Proof. solve_decision. Defined.

Inductive node : Type :=
| Str (k : string_class) (s : string)
| Tag (name : string) (attrs : gmap string attr) (contents : list node).

Module Soup.

(** [tag.descendants]: every node below [n], in document order. *)
Fixpoint descendants (n : node) : list node :=
  match n with
  | Str _ _ => []
  | Tag _ _ cs => flat_map (λ c, c :: descendants c) cs
  end.

(** The descendants of the document object itself. *)
Definition all_nodes (soup : list node) : list node :=
  flat_map (λ c, c :: descendants c) soup.

(** The string classes [get_text] collects below an element of the
    given name. *)
Definition interesting_string_types (name : string) : list string_class :=
  if String.eqb name "rt" then [RubyTextString]
  else if String.eqb name "rp" then [RubyParenthesisString]
  else if String.eqb name "style" then [Stylesheet]
  else if String.eqb name "script" then [Script]
  else if String.eqb name "template" then [TemplateString]
  else [NavigableString; CData].

(** One step of [_all_strings(strip=True)]: elements and strings of
    another class are skipped, a string that is empty once stripped is
    skipped too. *)
Definition stripped_string (types : list string_class) (d : node) : option string :=
  match d with
  | Tag _ _ _ => None
  | Str k s =>
      if bool_decide (k ∈ types) then
        let s' := PyStr.strip s in
        if (PyStr.len s' =? 0)%nat then None else Some s'
      else None
  end.

Definition node_name (n : node) : string :=
  match n with
  | Tag name _ _ => name
  | Str _ _ => ""
  end.

(** [element.get_text(strip=True, separator=sep)] *)
Definition get_text (sep : string) (element : node) : string :=
  PyStr.join sep
    (omap (stripped_string (interesting_string_types (node_name element)))
          (descendants element)).

Section Selectors.

(** The CSS engine, for selectors without combinators: whether the
    selector text matches an element with this name and these
    attributes. *)
Variable css_match : string → string → gmap string attr → bool.

Definition matches (selector : string) (n : node) : bool :=
  match n with
  | Tag name attrs _ => css_match selector name attrs
  | Str _ _ => false
  end.

(** [element.select(selector)]: the matching descendants, in
    document order. *)
Definition select (selector : string) (element : node) : list node :=
  filter (λ d, matches selector d = true) (descendants element).

(** [soup.select_one(selector)]: the first matching node of the
    document, if any. *)
Definition select_one (selector : string) (soup : list node) : option node :=
  head (filter (λ d, matches selector d = true) (all_nodes soup)).

(** The tree left once every node of [element.select(selector)] has
    been decomposed: a matching node disappears with everything
    below it. *)
Fixpoint decompose_selected (selector : string) (element : node) : node :=
  match element with
  | Str _ _ => element
  | Tag name attrs cs =>
      Tag name attrs
        ((fix go (l : list node) : list node :=
            match l with
            | [] => []
            | c :: r =>
                if matches selector c then go r
                else decompose_selected selector c :: go r
            end) cs)
  end.

(** The nodes [decompose_selected] leaves in place. *)
Definition keeps (selector : string) (c : node) : Prop :=
  matches selector c = false.

#[global] Instance keeps_dec selector c : Decision (keeps selector c) :=
  decide (matches selector c = false).

(** Two nodes that differ at most below elements the selector
    matches. *)
Fixpoint same_outside (selector : string) (n1 n2 : node) {struct n1} : Prop :=
  match n1, n2 with
  | Str k1 s1, Str k2 s2 => k1 = k2 ∧ s1 = s2
  | Tag name1 attrs1 cs1, Tag name2 attrs2 cs2 =>
      name1 = name2 ∧ attrs1 = attrs2 ∧
      (css_match selector name1 attrs1 = true ∨
       (fix all2 (l1 l2 : list node) : Prop :=
          match l1, l2 with
          | [], [] => True
          | c1 :: r1, c2 :: r2 => same_outside selector c1 c2 ∧ all2 r1 r2
          | _, _ => False
          end) cs1 cs2)
  | _, _ => False
  end.

(** Two elements with the same name and attributes whose contents
    differ at most below elements the selector matches. *)
Definition same_region (selector : string) (e1 e2 : node) : Prop :=
  match e1, e2 with
  | Tag name1 attrs1 cs1, Tag name2 attrs2 cs2 =>
      name1 = name2 ∧ attrs1 = attrs2 ∧ Forall2 (same_outside selector) cs1 cs2
  | _, _ => False
  end.

End Selectors.

(** Induction on a tree, with the hypothesis available for every
    child of an element. *)
Fixpoint node_forall_ind (P : node → Prop)
    (Hstr : ∀ k s, P (Str k s))
    (Htag : ∀ name attrs cs, Forall P cs → P (Tag name attrs cs))
    (n : node) : P n :=
  match n with
  | Str k s => Hstr k s
  | Tag name attrs cs =>
      Htag name attrs cs
        ((fix go (l : list node) : Forall P l :=
            match l with
            | [] => List.Forall_nil P
            | c :: r => List.Forall_cons P c r (node_forall_ind P Hstr Htag c) (go r)
            end) cs)
  end.

End Soup.

(** ** The outbound session *)

Record request : Type := Request {
  req_url : string;
  req_params : gmap string value
}.

(** What [session.get] gives back.  [Fault e]: the call raised (timeout,
    connection error).  [Response st js tx]: a response with status
    [st]; [js] is the outcome of [response.json()] and [tx] the outcome
    of [response.text()], each either raising or returning. *)
Inductive reply : Type :=
| Fault (e : exn)
| Response (status : Z) (json : result value) (text : result string).

(** [session]: whether the client holds a session; [sent]: the requests
    issued so far, oldest first. *)
Record world : Type := World {
  session : bool;
  sent : list request
}.

Definition M (A : Type) : Type := world → A * world.

Definition ret {A} (a : A) : M A := λ w, (a, w).

Definition bind {A B} (m : M A) (k : A → M B) : M B :=
  λ w, let '(a, w') := m w in k a w'.

Notation "'let!' x ':=' m 'in' k" := (bind m (λ x, k))
  (at level 10, x pattern, m at level 100, k at level 200, only parsing).

Definition DOCS_BASE_URL : string := "https://docs.microsoft.com".
Definition LEARN_BASE_URL : string := "https://learn.microsoft.com".
Definition SEARCH_API_URL : string := "https://docs.microsoft.com/api/search".

(** ** The fetch client *)
Section Client.

(** The remote side: what each request is answered with. *)
Variable net : request → reply.

(** [BeautifulSoup(html, 'html.parser')]: the parsed document, or the
    fault the parser raised. *)
Variable html_parser : string → result (list node).

(** The CSS engine behind [select] and [select_one]. *)
Variable css_match : string → string → gmap string attr → bool.

(** [get_session]: the session is created on first use and kept. *)
Definition get_session : M unit :=
  λ w, (tt, {| session := true; sent := sent w |}).

(** [session.get(url, params=params)] *)
Definition session_get (url : string) (params : gmap string value) : M reply :=
  λ w, let r := Request url params in
       (net r, {| session := session w; sent := sent w ++ [r] |}).

Definition slug (query : string) : string :=
  PyStr.replace_char " " "-" (PyStr.lower query).

Definition or_general (product : string) : value :=
  VStr (if truthy product then product else "General").

Definition mock_results (query product : string) : list value :=
  [ VDict (<["title" := VStr ("Microsoft Documentation: " +:+ query)]>
           (<["url" := VStr (LEARN_BASE_URL +:+ "/en-us/docs/" +:+ slug query)]>
           (<["description" :=
                VStr ("Documentation about " +:+ query +:+ " in Microsoft products")]>
           (<["lastUpdated" := VStr "2024-01-01T00:00:00Z"]>
           (<["product" := or_general product]> ∅)))));
    VDict (<["title" := VStr (query +:+ " - Getting Started Guide")]>
           (<["url" :=
                VStr (LEARN_BASE_URL +:+ "/en-us/docs/" +:+ slug query
                      +:+ "/getting-started")]>
           (<["description" := VStr ("Getting started guide for " +:+ query)]>
           (<["lastUpdated" := VStr "2024-01-01T00:00:00Z"]>
           (<["product" := or_general product]> ∅)))));
    VDict (<["title" := VStr (query +:+ " - Code Examples")]>
           (<["url" := VStr (LEARN_BASE_URL +:+ "/en-us/samples/" +:+ slug query)]>
           (<["description" := VStr ("Code examples and samples for " +:+ query)]>
           (<["lastUpdated" := VStr "2024-01-01T00:00:00Z"]>
           (<["product" := or_general product]> ∅))))) ].

(** [_fallback_search] *)
Definition _fallback_search (query product : string) (max_results : Z) : M value :=
  ret (VList (slice_to (mock_results query product) max_results)).

Definition search_params (query product language : string) (max_results : Z)
  : gmap string value :=
  let params :=
    <["search" := VStr query]>
    (<["locale" := VStr language]>
    (<["$top" := VInt max_results]> ∅)) in
  if truthy product then <["products" := VStr product]> params else params.

(** [search_docs].  Everything from [session.get] on sits inside the
    [try]: a fault of the call, a fault of [response.json()] and a
    decoded document without a [get] method all end in the handler. *)
Definition search_docs (query product language : string) (max_results : Z) : M value :=
  let! _ := get_session in
  let search_url := LEARN_BASE_URL +:+ "/api/search" in
  let params := search_params query product language max_results in
  let! response := session_get search_url params in
  match response with
  | Response status json _ =>
      if status =? 200 then
        match json with
        | inr data =>
            match py_get data "results" (VList []) with
            | inr results => ret results
            | inl _ => _fallback_search query product max_results
            end
        | inl _ => _fallback_search query product max_results
        end
      else _fallback_search query product max_results
  | Fault _ => _fallback_search query product max_results
  end.

Definition dquote : string := String "034"%char EmptyString.
Definition newline : string := String "010"%char EmptyString.

Definition content_selectors : list string :=
  [ "main[role=" +:+ dquote +:+ "main" +:+ dquote +:+ "]";
    ".content";
    "article";
    "#main-content" ].

Definition unwanted_selector : string :=
  "nav, .breadcrumb, .alert, .feedback-section".

(** The [for selector in content_selectors] loop: the first selector
    with a match decides the content and ends the loop; with no match
    at all the content stays empty. *)
Fixpoint extract_content (soup : list node) (selectors : list string) : string :=
  match selectors with
  | [] => ""
  | selector :: rest =>
      match Soup.select_one css_match selector soup with
      | Some element =>
          Soup.get_text newline
            (Soup.decompose_selected css_match unwanted_selector element)
      | None => extract_content soup rest
      end
  end.

(** [get_page_content] *)
Definition get_page_content (url : string) : M string :=
  let! _ := get_session in
  let! response := session_get url ∅ in
  match response with
  | Response status _ text =>
      if status =? 200 then
        match text with
        | inr html =>
            match html_parser html with
            | inr soup =>
                let content := extract_content soup content_selectors in
                ret (PyStr.take 5000 content)
            | inl e => ret ("Error fetching content: " +:+ e)
            end
        | inl e => ret ("Error fetching content: " +:+ e)
        end
      else ret ("Error fetching content: HTTP " +:+ PyStr.of_int status)
  | Fault e => ret ("Error fetching content: " +:+ e)
  end.

(** ** The tool functions *)

Definition rbind {A B} (m : result A) (k : A → result B) : result B :=
  match m with
  | inl e => inl e
  | inr a => k a
  end.

Notation "'do!' x ':=' m 'in' k" := (rbind m (λ x, k))
  (at level 10, x pattern, m at level 100, k at level 200, only parsing).

Definition format_result (r : value) : result value :=
  do! title := py_get r "title" (VStr "No title") in
  do! url := py_get r "url" (VStr "") in
  do! description := py_get r "description" (VStr "No description available") in
  do! lastUpdated := py_get r "lastUpdated" (VStr "Unknown") in
  do! product := py_get r "product" (VStr "General") in
  inr (VDict (<["title" := title]>
             (<["url" := url]>
             (<["description" := description]>
             (<["lastUpdated" := lastUpdated]>
             (<["product" := product]> ∅)))))).

Fixpoint format_results (results : list value) : result (list value) :=
  match results with
  | [] => inr []
  | r :: rest =>
      do! formatted_result := format_result r in
      do! formatted_results := format_results rest in
      inr (formatted_result :: formatted_results)
  end.

Definition error_list (prefix : string) (e : exn) : value :=
  VList [VDict (<["error" := VStr (prefix +:+ e)]> ∅)].

(** [search_microsoft_docs] *)
Definition search_microsoft_docs (query product language : string) (max_results : Z)
  : M value :=
  let max_results := Z.min max_results 10 in
  let! results := search_docs query product language max_results in
  match (do! items := py_iter results in format_results items) with
  | inr formatted_results => ret (VList formatted_results)
  | inl e => ret (error_list "Search failed: " e)
  end.

(** [get_documentation_content].  [get_page_content] handles its own
    faults, so nothing reaches the handler of this function. *)
Definition get_documentation_content (url : string) : M string :=
  if negb (PyStr.startswith url "https://docs.microsoft.com"
           || PyStr.startswith url "https://learn.microsoft.com")
  then ret "Error: URL must be from docs.microsoft.com or learn.microsoft.com"
  else
    let! content := get_page_content url in
    ret content.

Definition example_keywords : list string :=
  ["example"; "tutorial"; "sample"; "quickstart"; "getting started"].

(** The [any(...)] test of [find_code_examples]: keywords are tried in
    order, the title before the description, and the first success
    ends the evaluation. *)
Fixpoint any_keyword (r : value) (keywords : list string) : result bool :=
  match keywords with
  | [] => inr false
  | keyword :: rest =>
      do! title := py_get r "title" (VStr "") in
      do! title := py_lower title in
      if PyStr.contains keyword title then inr true
      else
        do! description := py_get r "description" (VStr "") in
        do! description := py_lower description in
        if PyStr.contains keyword description then inr true
        else any_keyword r rest
  end.

Definition code_example (r : value) : result value :=
  do! title := py_get r "title" (VStr "") in
  do! url := py_get r "url" (VStr "") in
  do! description := py_get r "description" (VStr "") in
  inr (VDict (<["title" := title]>
             (<["url" := url]>
             (<["description" := description]>
             (<["type" := VStr "code_example"]> ∅))))).

Fixpoint filter_examples (results : list value) : result (list value) :=
  match results with
  | [] => inr []
  | r :: rest =>
      do! keep := any_keyword r example_keywords in
      if keep then
        do! example := code_example r in
        do! code_examples := filter_examples rest in
        inr (example :: code_examples)
      else filter_examples rest
  end.

Definition example_query (technology programming_language scenario : string) : string :=
  let query_parts := [technology] in
  let query_parts :=
    if truthy programming_language then query_parts ++ [programming_language]
    else query_parts in
  let query_parts :=
    if truthy scenario then query_parts ++ [scenario] else query_parts in
  let query_parts := query_parts ++ ["code"; "example"; "tutorial"; "sample"] in
  PyStr.join " " query_parts.

(** [find_code_examples] *)
Definition find_code_examples (technology programming_language scenario : string)
  : M value :=
  let query := example_query technology programming_language scenario in
  let! results := search_docs query "" "en-us" 5 in
  match (do! items := py_iter results in filter_examples items) with
  | inr code_examples => ret (VList code_examples)
  | inl e => ret (error_list "Failed to find code examples: " e)
  end.

(** The title test of [get_api_reference]: the description is not
    looked at, and the title is fetched again for the second word. *)
Definition api_title_test (r : value) : result bool :=
  do! title := py_get r "title" (VStr "") in
  do! title := py_lower title in
  if PyStr.contains "api" title then inr true
  else
    do! title := py_get r "title" (VStr "") in
    do! title := py_lower title in
    inr (PyStr.contains "reference" title).

Definition api_doc (version : string) (r : value) : result value :=
  do! title := py_get r "title" (VStr "") in
  do! url := py_get r "url" (VStr "") in
  do! description := py_get r "description" (VStr "") in
  inr (VDict (<["title" := title]>
             (<["url" := url]>
             (<["description" := description]>
             (<["version" := VStr version]>
             (<["type" := VStr "api_reference"]> ∅)))))).

Fixpoint filter_api_docs (version : string) (results : list value) : result (list value) :=
  match results with
  | [] => inr []
  | r :: rest =>
      do! keep := api_title_test r in
      if keep then
        do! doc := api_doc version r in
        do! api_docs := filter_api_docs version rest in
        inr (doc :: api_docs)
      else filter_api_docs version rest
  end.

(** [get_api_reference].  The [language] argument is accepted and not
    used: the search runs with the defaults of [search_docs]. *)
Definition get_api_reference (api_name version language : string) : M value :=
  let query := api_name +:+ " API reference " +:+ version in
  let! results := search_docs query "" "en-us" 3 in
  match (do! items := py_iter results in filter_api_docs version items) with
  | inr api_docs =>
      ret (VDict (<["api_name" := VStr api_name]>
                 (<["version" := VStr version]>
                 (<["documentation" := VList api_docs]> ∅))))
  | inl e => ret (VDict (<["error" := VStr ("Failed to get API reference: " +:+ e)]> ∅))
  end.

(** The table of [get_documentation_categories], in the order of the
    dictionary literal. *)
Definition categories : list (string * list string) :=
  [ ("Azure", ["Functions"; "App Service"; "Storage"; "Cosmos DB"; "Active Directory"]);
    ("Microsoft 365", ["Graph API"; "Teams"; "SharePoint"; "Outlook"]);
    ("Development", [".NET"; "C#"; "JavaScript"; "Python"; "PowerShell"]);
    ("Windows", ["WinUI"; "UWP"; "Win32"; "Windows Forms"]);
    ("Office", ["Excel"; "Word"; "PowerPoint"; "Outlook"]);
    ("Power Platform", ["Power Apps"; "Power Automate"; "Power BI"]);
    ("Visual Studio", ["Code"; "IDE"; "Extensions"; "Debugging"]) ].

(** The two nested loops of [get_documentation_categories], appending
    to the text built so far. *)
Definition format_items (formatted : string) (items : list string) : string :=
  fold_left (λ acc item, acc +:+ "- " +:+ item +:+ newline) items formatted.

Definition format_categories (table : list (string * list string)) : string :=
  fold_left
    (λ acc entry, format_items (acc +:+ newline +:+ "## " +:+ entry.1 +:+ newline) entry.2)
    table "".

(** [get_documentation_categories] *)
Definition get_documentation_categories : string := format_categories categories.

End Client.

(** ** Notions used to state the properties *)

(** The request [search_docs] issues. *)
Definition search_request (query product language : string) (max_results : Z) : request :=
  Request (LEARN_BASE_URL +:+ "/api/search")
          (search_params query product language max_results).

(** The world once the client has issued request [r]. *)
Definition after_call (r : request) (w : world) : world :=
  {| session := true; sent := sent w ++ [r] |}.

(** A search that found no live data: the call raised, the status is not
    200, or the body could not be decoded. *)
Definition search_failed (r : reply) : Prop :=
  match r with
  | Fault _ => True
  | Response status (inl _) _ => True
  | Response status (inr _) _ => status ≠ 200
  end.

(** The value a record holds under a key. *)
Definition field (r : value) (key : string) : option value :=
  match r with
  | VDict d => d !! key
  | _ => None
  end.

Definition sentinel_date : string := "2024-01-01T00:00:00Z".

(** A network on which every call raises. *)
Definition net_down (e : exn) : request → reply := λ _, Fault e.

(** A parser and a CSS engine for the examples: the parser wraps the
    text into one [article]; the engine knows element names only. *)
Definition parser_article : string → result (list node) :=
  λ html, inr [Tag "article" ∅ [Str NavigableString html]].

Definition css_by_name : string → string → gmap string attr → bool :=
  λ selector name _, String.eqb selector name.

Definition w0 : world := World false [].

(** The meaning of the selectors the module uses, for documents as the
    parser builds them (lower-case names, [class] as a token list). *)
Definition has_class (c : string) (attrs : gmap string attr) : bool :=
  match attrs !! "class" with
  | Some (AList l) => bool_decide (c ∈ l)
  | Some (AStr s) => String.eqb s c
  | None => false
  end.

Definition css_reference (selector name : string) (attrs : gmap string attr) : bool :=
  if String.eqb selector ("main[role=" +:+ dquote +:+ "main" +:+ dquote +:+ "]") then
    String.eqb name "main" && bool_decide (attrs !! "role" = Some (AStr "main"))
  else if String.eqb selector ".content" then has_class "content" attrs
  else if String.eqb selector "article" then String.eqb name "article"
  else if String.eqb selector "#main-content" then
    bool_decide (attrs !! "id" = Some (AStr "main-content"))
  else if String.eqb selector "nav, .breadcrumb, .alert, .feedback-section" then
    String.eqb name "nav" || has_class "breadcrumb" attrs || has_class "alert" attrs
    || has_class "feedback-section" attrs
  else false.

(** A page with a navigation block inside its [article], behind a
    [div] that no content selector matches. *)
Definition page_with_nav : list node :=
  [ Tag "div" {[ "class" := AList ["header"] ]} [Str NavigableString "Site header"];
    Tag "article" ∅
      [ Tag "nav" ∅ [Tag "a" ∅ [Str NavigableString "Menu entry"]];
        Tag "h1" ∅ [Str NavigableString " Azure Functions "];
        Str Comment "generated";
        Tag "p" ∅ [Str NavigableString "Run code on demand."];
        Tag "div" {[ "class" := AList ["alert"; "is-info"] ]}
          [Str NavigableString "Note: preview"] ] ].

Definition net_page : request → reply :=
  λ _, Response 200 (inl "not json") (inr "<html>").

Definition parser_page : string → result (list node) := λ _, inr page_with_nav.

Definition article_of_page : node :=
  Tag "article" ∅
    [ Tag "nav" ∅ [Tag "a" ∅ [Str NavigableString "Menu entry"]];
      Tag "h1" ∅ [Str NavigableString " Azure Functions "];
      Str Comment "generated";
      Tag "p" ∅ [Str NavigableString "Run code on demand."];
      Tag "div" {[ "class" := AList ["alert"; "is-info"] ]}
        [Str NavigableString "Note: preview"] ].

(** A live answer holding three hits. *)
Definition three_hits : list value :=
  [ VDict {[ "title" := VStr "Azure Functions overview" ]};
    VDict {[ "title" := VStr "Azure Functions triggers" ]};
    VDict {[ "title" := VStr "Azure Functions pricing" ]} ].

Definition net_three_hits : request → reply :=
  λ _, Response 200 (inr (VDict {[ "results" := VList three_hits ]})) (inl "not read").

(** The description an error string of [get_page_content] embeds, when
    the fetch met a fault: the call raised, reading the body raised, or
    the parser raised. *)
Definition fault_text (html_parser : string → result (list node)) (r : reply)
  : option exn :=
  match r with
  | Fault e => Some e
  | Response status _ text =>
      if status =? 200 then
        match text with
        | inl e => Some e
        | inr html =>
            match html_parser html with
            | inl e => Some e
            | inr _ => None
            end
        end
      else None
  end.

(** A fault description of [n] characters. *)
Definition filler (n : nat) : string := string_of_list_ascii (repeat "x"%char n).

(** The host part of a url, as the claims about url validation use the
    word: what stands between [://] and the next slash.  The module has
    no such notion; it only serves to state what the prefix test lets
    through. *)
Fixpoint until_slash (s : string) : string :=
  match s with
  | EmptyString => EmptyString
  | String c r => if Ascii.eqb c "/" then EmptyString else String c (until_slash r)
  end.

Fixpoint after_scheme (s : string) : string :=
  match s with
  | EmptyString => EmptyString
  | String ":" (String "/" (String "/" r)) => r
  | String _ r => after_scheme r
  end.

Definition url_host (url : string) : string := until_slash (after_scheme url).

Definition lookalike_url : string := "https://docs.microsoft.com.attacker.example/page".

(** *** Code examples, as the specification words them *)

(** [kw] occurs in [s] as a substring. *)
Definition occurs_in (kw s : string) : Prop := ∃ a b, s = a +:+ kw +:+ b.

(** The text a record holds under a key; an absent key counts as the
    empty text. *)
Definition text_field (r : value) (key : string) : string :=
  match field r key with
  | Some (VStr s) => s
  | _ => ""
  end.

(** The title or the description contains one of the keywords, letter
    case set aside. *)
Definition mentions_keyword (r : value) : Prop :=
  ∃ kw, kw ∈ example_keywords ∧
        (occurs_in kw (PyStr.lower (text_field r "title")) ∨
         occurs_in kw (PyStr.lower (text_field r "description"))).

(** The same test, computed. *)
Definition keyword_hit (r : value) (kw : string) : bool :=
  PyStr.contains kw (PyStr.lower (text_field r "title"))
  || PyStr.contains kw (PyStr.lower (text_field r "description")).

Definition keyword_in (r : value) : bool := existsb (keyword_hit r) example_keywords.

(** A search record: a mapping whose title and description, when
    present, are strings. *)
Definition text_or_absent (o : option value) : Prop :=
  match o with
  | None | Some (VStr _) => True
  | Some _ => False
  end.

Definition search_record (r : value) : Prop :=
  match r with
  | VDict d => text_or_absent (d !! "title") ∧ text_or_absent (d !! "description")
  | _ => False
  end.

(** The entry [find_code_examples] returns for a kept record. *)
Definition example_entry (r : value) : value :=
  VDict (<["title" := default (VStr "") (field r "title")]>
        (<["url" := default (VStr "") (field r "url")]>
        (<["description" := default (VStr "") (field r "description")]>
        (<["type" := VStr "code_example"]> ∅)))).

Definition react_hits : list value :=
  [ VDict (<["title" := VStr "Quickstart: sign in users in a React app"]>
          (<["url" := VStr "https://learn.microsoft.com/quickstart"]> ∅));
    VDict (<["title" := VStr "Authentication overview"]>
          (<["description" := VStr "Concepts and reference"]> ∅));
    VDict (<["description" := VStr "A TUTORIAL on authentication"]> ∅) ].

Definition net_react : request → reply :=
  λ _, Response 200 (inr (VDict {[ "results" := VList react_hits ]})) (inl "not read").

(** ** The life of the session

    [get_session], [close] and [cleanup] seen on the session object
    alone: [handle] is what [self.session] holds, [created] counts the
    [ClientSession] objects constructed so far. *)
Module Lifecycle.

Inductive session_state : Type := Open | Closed.

Record client : Type := Client {
  handle : option session_state;
  created : nat
}.

(** [MicrosoftDocsClient.__init__] *)
Definition init : client := Client None 0.

(** [get_session]: a session is constructed only when none is held; a
    held one is returned as it is, closed or not. *)
Definition get_session (c : client) : session_state * client :=
  match handle c with
  | None => (Open, {| handle := Some Open; created := S (created c) |})
  | Some s => (s, c)
  end.

(** [close]: a held session is closed; the attribute keeps it. *)
Definition close (c : client) : client :=
  match handle c with
  | Some _ => {| handle := Some Closed; created := created c |}
  | None => c
  end.

(** [cleanup] *)
Definition cleanup (c : client) : client := close c.

Inductive op : Type := GetSession | Close | Cleanup.

Definition step (c : client) (o : op) : client :=
  match o with
  | GetSession => (get_session c).2
  | Close => close c
  | Cleanup => cleanup c
  end.

Definition run (ops : list op) (c : client) : client := fold_left step ops c.

End Lifecycle.

(** *** Further notions *)




(** The characters of [s] all satisfy [P]. *)
Fixpoint all_chars (P : ascii → bool) (s : string) : bool :=
  match s with
  | EmptyString => true
  | String c r => P c && all_chars P r
  end.

Definition url_safe_char (c : ascii) : bool :=
  negb (Ascii.eqb c " ") && negb ((65 <=? N_of_ascii c) && (N_of_ascii c <=? 90))%N.

Definition is_dict (v : value) : Prop :=
  match v with
  | VDict _ => True
  | _ => False
  end.

(** The record [search_microsoft_docs] makes of a mapping. *)
Definition formatted_record (d : gmap string value) : value :=
  VDict (<["title" := default (VStr "No title") (d !! "title")]>
        (<["url" := default (VStr "") (d !! "url")]>
        (<["description" := default (VStr "No description available") (d !! "description")]>
        (<["lastUpdated" := default (VStr "Unknown") (d !! "lastUpdated")]>
        (<["product" := default (VStr "General") (d !! "product")]> ∅))))).

Definition formatted_value (v : value) : value :=
  match v with
  | VDict d => formatted_record d
  | _ => v
  end.

(** The title contains "api" or "reference", letter case set aside. *)
Definition api_title (r : value) : bool :=
  PyStr.contains "api" (PyStr.lower (text_field r "title"))
  || PyStr.contains "reference" (PyStr.lower (text_field r "title")).

(** A mapping whose title, when present, is a string. *)
Definition titled_record (r : value) : Prop :=
  match r with
  | VDict d => text_or_absent (d !! "title")
  | _ => False
  end.

(** The entry [get_api_reference] returns for a kept record. *)
Definition api_entry (version : string) (r : value) : value :=
  VDict (<["title" := default (VStr "") (field r "title")]>
        (<["url" := default (VStr "") (field r "url")]>
        (<["description" := default (VStr "") (field r "description")]>
        (<["version" := VStr version]>
        (<["type" := VStr "api_reference"]> ∅))))).

Definition api_answer (api_name version : string) (docs : list value) : value :=
  VDict (<["api_name" := VStr api_name]>
        (<["version" := VStr version]>
        (<["documentation" := VList docs]> ∅))).

(** A live record with a keyword in its title and a null description. *)
Definition sample_null_record : value :=
  VDict (<["title" := VStr "Azure sample"]> (<["description" := VNone]> ∅)).

Definition net_sample_null : request → reply :=
  λ _, Response 200 (inr (VDict {[ "results" := VList [sample_null_record] ]}))
         (inl "not read").

Definition graph_hits : list value :=
  [ VDict {[ "title" := VStr "Microsoft Graph REST API v1.0" ]};
    VDict (<["title" := VStr "Overview"]>
          (<["description" := VStr "API reference"]> ∅)) ].

Definition net_graph : request → reply :=
  λ _, Response 200 (inr (VDict {[ "results" := VList graph_hits ]})) (inl "not read").

(** The block of one category in the listing. *)
Definition category_block (entry : string * list string) : string :=
  newline +:+ "## " +:+ entry.1 +:+ newline
  +:+ PyStr.join "" ((λ item, "- " +:+ item +:+ newline) <$> entry.2).

(** ** Strings *)

Lemma len_append (a b : string) :
  PyStr.len (a +:+ b) = (PyStr.len a + PyStr.len b)%nat.
Proof.
  unfold PyStr.len. induction a as [|c a IH]; simpl; [done|]. by rewrite IH.
Qed.

Lemma len_take (n : nat) (s : string) : (PyStr.len (PyStr.take n s) ≤ n)%nat.
Proof.
  unfold PyStr.len. revert s.
  induction n as [|n IH]; intros [|c s]; simpl; try lia.
  specialize (IH s). lia.
Qed.

Lemma startswith_spec (s p : string) :
  PyStr.startswith s p = true ↔ ∃ r, s = p +:+ r.
Proof.
  revert s. induction p as [|a p IH]; intros s; simpl.
  - split; [intros _; by exists s | by destruct s].
  - destruct s as [|b s]; simpl.
    + split; [done | intros [r Hr]; discriminate].
    + rewrite andb_true_iff, IH. split.
      * intros [Hab [r ->]]. apply Ascii.eqb_eq in Hab as ->. by exists r.
      * intros [r Hr]. injection Hr as -> ->. split; [apply Ascii.eqb_refl | by exists r].
Qed.

Lemma contains_spec (kw s : string) :
  PyStr.contains kw s = true ↔ occurs_in kw s.
Proof.
  unfold occurs_in. split.
  - induction s as [|c s IH]; cbn [PyStr.contains]; rewrite orb_true_iff.
    + intros [H|H]; [|done]. apply startswith_spec in H as [r ->]. by exists "", r.
    + intros [H|H].
      * apply startswith_spec in H as [r ->]. by exists "", r.
      * destruct (IH H) as (a & b & ->). by exists (String c a), b.
  - intros (a & b & ->). induction a as [|c a IH].
    + assert (PyStr.startswith (kw +:+ b) kw = true) as Hpre
        by (apply startswith_spec; by exists b).
      change ("" +:+ kw +:+ b) with (kw +:+ b).
      destruct (kw +:+ b); cbn [PyStr.contains]; by rewrite Hpre.
    + change (String c a +:+ kw +:+ b) with (String c (a +:+ kw +:+ b)).
      cbn [PyStr.contains]. by rewrite IH, orb_true_r.
Qed.

Lemma len_digits (fuel : nat) (n : N) (acc : string) :
  (PyStr.len (PyStr.digits fuel n acc) ≤ fuel + PyStr.len acc)%nat.
Proof.
  revert n acc. induction fuel as [|f IH]; intros n acc; simpl; [lia|].
  destruct (n / 10 =? 0)%N.
  - unfold PyStr.len. simpl. lia.
  - specialize (IH (n / 10)%N (String (ascii_of_N (48 + n mod 10)) acc)).
    unfold PyStr.len in *. simpl in IH. lia.
Qed.

Lemma len_of_int_status (status : Z) :
  0 ≤ status < 1000 → (PyStr.len (PyStr.of_int status) ≤ 10)%nat.
Proof.
  intros Hst. unfold PyStr.of_int.
  destruct (Z.ltb_spec status 0) as [?|_]; [lia|].
  rewrite Z.abs_eq by lia.
  etransitivity; [apply len_digits|].
  change (PyStr.len "") with 0%nat.
  assert (N.log2 (Z.to_N status) ≤ 9)%N as Hlog; [|lia].
  destruct (N.eq_dec (Z.to_N status) 0%N) as [->|Hne]; [done|].
  apply N.lt_succ_r, N.log2_lt_pow2; lia.
Qed.

(** ** Running the client *)

Section Runs.

Variable net : request → reply.
Variable html_parser : string → result (list node).
Variable css_match : string → string → gmap string attr → bool.

Lemma search_docs_sent q p l m w :
  (search_docs net q p l m w).2 = after_call (search_request q p l m) w.
Proof.
  unfold search_docs, bind, get_session, session_get, search_request. simpl.
  destruct (net _) as [e|st [e|data] tx]; simpl; [done| |].
  - by destruct (st =? 200).
  - destruct (st =? 200); [|done]. by destruct (py_get data _ _).
Qed.

Lemma search_docs_fallback q p l m w :
  search_failed (net (search_request q p l m)) →
  (search_docs net q p l m w).1 = VList (slice_to (mock_results q p) m).
Proof.
  unfold search_docs, bind, get_session, session_get, search_request. simpl.
  destruct (net _) as [e|st [e|data] tx]; simpl; [done| |].
  - by destruct (st =? 200).
  - intros Hst. by destruct (Z.eqb_spec st 200).
Qed.

Lemma search_docs_ok q p l m w tx d :
  net (search_request q p l m) = Response 200 (inr (VDict d)) tx →
  (search_docs net q p l m w).1 = default (VList []) (d !! "results").
Proof.
  unfold search_docs, bind, get_session, session_get, search_request. simpl.
  by intros ->.
Qed.

Lemma mock_results_fields q p :
  ∃ r1 r2 r3,
    mock_results q p = [r1; r2; r3] ∧
    field r1 "url" = Some (VStr ("https://learn.microsoft.com/en-us/docs/" +:+ slug q)) ∧
    field r2 "url" = Some (VStr ("https://learn.microsoft.com/en-us/docs/" +:+ slug q
                                  +:+ "/getting-started")) ∧
    field r3 "url" = Some (VStr ("https://learn.microsoft.com/en-us/samples/" +:+ slug q)) ∧
    Forall (λ r, field r "lastUpdated" = Some (VStr sentinel_date)) [r1; r2; r3].
Proof.
  eexists _, _, _. split; [reflexivity|].
  repeat split; try by (simpl; simplify_map_eq).
  repeat constructor; simpl; by simplify_map_eq.
Qed.

Lemma search_microsoft_docs_sent q p l m w :
  (search_microsoft_docs net q p l m w).2
    = after_call (search_request q p l (Z.min m 10)) w.
Proof.
  unfold search_microsoft_docs, bind.
  pose proof (search_docs_sent q p l (Z.min m 10) w) as Hs.
  destruct (search_docs net q p l (Z.min m 10) w) as [results w']. simpl in Hs.
  by destruct (rbind (py_iter results) _).
Qed.

Lemma get_page_content_sent url w :
  (get_page_content net html_parser css_match url w).2 = after_call (Request url ∅) w.
Proof.
  unfold get_page_content, bind, get_session, session_get. simpl.
  destruct (net _) as [e|st js [e|html]]; simpl; [done| |].
  - by destruct (st =? 200).
  - destruct (st =? 200); [|done]. by destruct (html_parser html).
Qed.

Lemma get_page_content_ok url w js html soup :
  net (Request url ∅) = Response 200 js (inr html) →
  html_parser html = inr soup →
  (get_page_content net html_parser css_match url w).1
    = PyStr.take 5000 (extract_content css_match soup content_selectors).
Proof.
  unfold get_page_content, bind, get_session, session_get. cbn [session sent].
  by intros -> ->.
Qed.

Lemma format_mock_results q p k :
  format_results (take k (mock_results q p)) = inr (take k (mock_results q p)).
Proof.
  destruct k as [|[|[|[|k]]]]; reflexivity.
Qed.

End Runs.

(** ** Search: the fallback path *)

(** C1, as amended.  When the search call raises, answers with a status
    other than 200 or delivers a body that cannot be decoded, and
    [max_results] is not negative, [search_docs] returns (it has no way
    to raise) the first [min 3 max_results] of three records: a
    documentation page, a getting-started page and a code-examples page.
    Each url is built from the query lower-cased with spaces replaced by
    hyphens, and each [lastUpdated] is the fixed date. *)
Theorem search_docs_fallback_records net q p l m w :
  0 ≤ m →
  search_failed (net (search_request q p l m)) →
  let s := PyStr.replace_char " " "-" (PyStr.lower q) in
  ∃ r1 r2 r3,
    (search_docs net q p l m w).1 = VList (take (Z.to_nat (Z.min 3 m)) [r1; r2; r3]) ∧
    field r1 "title" = Some (VStr ("Microsoft Documentation: " +:+ q)) ∧
    field r2 "title" = Some (VStr (q +:+ " - Getting Started Guide")) ∧
    field r3 "title" = Some (VStr (q +:+ " - Code Examples")) ∧
    field r1 "url" = Some (VStr ("https://learn.microsoft.com/en-us/docs/" +:+ s)) ∧
    field r2 "url" = Some (VStr ("https://learn.microsoft.com/en-us/docs/" +:+ s
                                  +:+ "/getting-started")) ∧
    field r3 "url" = Some (VStr ("https://learn.microsoft.com/en-us/samples/" +:+ s)) ∧
    Forall (λ r, field r "lastUpdated" = Some (VStr "2024-01-01T00:00:00Z")) [r1; r2; r3].
Proof.
  intros Hm Hfail s.
  destruct (mock_results_fields q p) as (r1 & r2 & r3 & Hmock & Hu1 & Hu2 & Hu3 & Hdate).
  exists r1, r2, r3.
  rewrite (search_docs_fallback net q p l m w Hfail), Hmock.
  split.
  - f_equal. unfold slice_to. destruct (Z.ltb_spec m 0) as [?|_]; [lia|].
    destruct (Z.min_spec 3 m) as [[Hlt ->]|[Hle ->]]; [|done].
    rewrite !firstn_all2; [done| |]; simpl; lia.
  - injection Hmock as <- <- <-.
    repeat split; try done; simpl; by simplify_map_eq.
Qed.

Lemma search_docs_fallback_records_witness :
  ∃ r1 r2 r3,
    (search_docs (net_down "timeout") "Azure Functions" "" "en-us" 2 w0).1
      = VList (take (Z.to_nat (Z.min 3 2)) [r1; r2; r3]) ∧
    field r1 "url"
      = Some (VStr "https://learn.microsoft.com/en-us/docs/azure-functions").
Proof.
  destruct (search_docs_fallback_records (net_down "timeout")
              "Azure Functions" "" "en-us" 2 w0 ltac:(lia) I)
    as (r1 & r2 & r3 & Hrun & _ & _ & _ & Hurl & _).
  exists r1, r2, r3. split; [exact Hrun | exact Hurl].
Defined.

(** C1 as stated fails for a negative [max_results]: at [-1] the result
    holds two records, not the first [min 3 (-1)] ones. *)
Lemma search_docs_fallback_negative_cex :
  ¬ (∀ net q p l m w,
       search_failed (net (search_request q p l m)) →
       (search_docs net q p l m w).1
         = VList (take (Z.to_nat (Z.min 3 m)) (mock_results q p))).
Proof.
  intros H.
  specialize (H (net_down "timeout") "a" "" "en-us" (-1) w0 I).
  rewrite (search_docs_fallback (net_down "timeout") "a" "" "en-us" (-1) w0 I) in H.
  discriminate H.
Qed.

(** ** Search: the live path *)

(** C2.  With status 200 the decoded [results] are returned as they are,
    and nothing cuts them down: asked for at most two results, the
    client hands back all three hits of the payload, and the tool
    function formats all three. *)
Theorem search_docs_live_not_capped :
  (search_docs net_three_hits "Azure Functions" "" "en-us" 2 w0).1 = VList three_hits ∧
  length three_hits = 3%nat ∧
  ∃ formatted,
    (search_microsoft_docs net_three_hits "Azure Functions" "" "en-us" 2 w0).1
      = VList formatted ∧
    length formatted = 3%nat.
Proof.
  split; [reflexivity|]. split; [reflexivity|].
  eexists. split; [vm_compute; reflexivity | reflexivity].
Qed.

(** A decoded document that is not an object has no [get]: the handler
    takes over and the fallback records are returned. *)
Example search_docs_json_list :
  (search_docs (λ _, Response 200 (inr (VList [])) (inl "not read"))
     "Azure Functions" "" "en-us" 1 w0).1
    = VList (take 1 (mock_results "Azure Functions" "")).
Proof. reflexivity. Qed.

(** ** The clamp of [search_microsoft_docs] *)

(** C8.  Whatever [max_results] the caller supplies, the one request the
    tool issues through the client carries [$top = min max_results 10],
    which is at most 10; a caller value of 1000 gives 10. *)
Theorem search_microsoft_docs_clamp net q p l m w :
  ∃ k,
    k = Z.min m 10 ∧ k ≤ 10 ∧ (m = 1000 → k = 10) ∧
    sent (search_microsoft_docs net q p l m w).2 = sent w ++ [search_request q p l k] ∧
    (search_microsoft_docs net q p l m w).2 = (search_docs net q p l k w).2 ∧
    req_params (search_request q p l k) !! "$top" = Some (VInt k) ∧
    search_microsoft_docs net q p l m w = search_microsoft_docs net q p l k w.
Proof.
  exists (Z.min m 10). repeat split; [lia | lia | | | |].
  - by rewrite search_microsoft_docs_sent.
  - by rewrite search_microsoft_docs_sent, search_docs_sent.
  - unfold search_request, search_params. simpl.
    destruct (truthy p); by simplify_map_eq.
  - unfold search_microsoft_docs.
    by replace (Z.min (Z.min m 10) 10) with (Z.min m 10) by lia.
Qed.

(** C10.  The clamp has no lower end: every [max_results] up to 10,
    negative ones included, reaches the client unchanged.  When the
    search then fails with [max_results = -1], the slice counts from the
    end and the tool returns the first two synthesized records, not an
    empty list. *)
Theorem search_microsoft_docs_negative net q p l w :
  (∀ m, m ≤ 10 →
        sent (search_microsoft_docs net q p l m w).2 = sent w ++ [search_request q p l m]) ∧
  (search_failed (net (search_request q p l (-1))) →
   (search_docs net q p l (-1) w).1 = VList (take 2 (mock_results q p)) ∧
   (search_microsoft_docs net q p l (-1) w).1 = VList (take 2 (mock_results q p)) ∧
   length (take 2 (mock_results q p)) = 2%nat).
Proof.
  split.
  - intros m Hm. rewrite search_microsoft_docs_sent. simpl.
    by replace (Z.min m 10) with m by lia.
  - intros Hfail.
    pose proof (search_docs_fallback net q p l (-1) w Hfail) as Hrun.
    split; [exact Hrun|]. split; [|reflexivity].
    unfold search_microsoft_docs, bind. change (Z.min (-1) 10) with (-1).
    destruct (search_docs net q p l (-1) w) as [results w']. simpl in Hrun. subst results.
    change (slice_to (mock_results q p) (-1)) with (take 2 (mock_results q p)).
    unfold rbind at 1. cbn [py_iter].
    by rewrite (format_mock_results q p 2).
Qed.

Lemma search_microsoft_docs_negative_witness :
  (search_microsoft_docs (net_down "timeout") "a" "" "en-us" (-1) w0).1
    = VList (take 2 (mock_results "a" "")).
Proof.
  exact (proj1 (proj2 (proj2 (search_microsoft_docs_negative
                                (net_down "timeout") "a" "" "en-us" w0) I))).
Defined.

(** ** Fetching a page: url validation *)

(** C6.  A url that starts with neither accepted prefix is answered with
    the error string and leaves the world as it was: no session is
    opened and no request is sent.  A url that starts with one of them
    is handed to [get_page_content], whose result is returned. *)
Theorem get_documentation_content_prefix net html_parser css_match url w :
  ((¬ ∃ r, url = "https://docs.microsoft.com" +:+ r) →
   (¬ ∃ r, url = "https://learn.microsoft.com" +:+ r) →
   get_documentation_content net html_parser css_match url w
     = ("Error: URL must be from docs.microsoft.com or learn.microsoft.com", w)) ∧
  ((∃ r, url = "https://docs.microsoft.com" +:+ r) ∨
   (∃ r, url = "https://learn.microsoft.com" +:+ r) →
   get_documentation_content net html_parser css_match url w
     = get_page_content net html_parser css_match url w).
Proof.
  unfold get_documentation_content. split.
  - intros Hdocs Hlearn.
    rewrite <- startswith_spec in Hdocs, Hlearn.
    apply not_true_is_false in Hdocs, Hlearn. by rewrite Hdocs, Hlearn.
  - intros Hpre.
    assert (PyStr.startswith url "https://docs.microsoft.com"
            || PyStr.startswith url "https://learn.microsoft.com" = true) as ->.
    { apply orb_true_iff. by rewrite !startswith_spec. }
    unfold bind, ret. simpl.
    by destruct (get_page_content net html_parser css_match url w).
Qed.

Lemma get_documentation_content_prefix_witness :
  get_documentation_content (net_down "timeout") parser_article css_by_name
      "https://example.com/page" w0
    = ("Error: URL must be from docs.microsoft.com or learn.microsoft.com", w0) ∧
  get_documentation_content (net_down "timeout") parser_article css_by_name
      "https://learn.microsoft.com/en-us/azure" w0
    = get_page_content (net_down "timeout") parser_article css_by_name
        "https://learn.microsoft.com/en-us/azure" w0.
Proof.
  split.
  - apply (get_documentation_content_prefix (net_down "timeout") parser_article
             css_by_name "https://example.com/page" w0).
    + intros H. apply startswith_spec in H. discriminate H.
    + intros H. apply startswith_spec in H. discriminate H.
  - apply (get_documentation_content_prefix (net_down "timeout") parser_article
             css_by_name "https://learn.microsoft.com/en-us/azure" w0).
    right. by exists "/en-us/azure".
Defined.

(** C9.  The validation looks at the text of the url, not at its host:
    a url whose host is [docs.microsoft.com.attacker.example] starts
    with an accepted prefix, so it is fetched like any other page. *)
Theorem get_documentation_content_lookalike :
  url_host lookalike_url = "docs.microsoft.com.attacker.example" ∧
  url_host lookalike_url ≠ "docs.microsoft.com" ∧
  url_host lookalike_url ≠ "learn.microsoft.com" ∧
  ∀ net html_parser css_match w,
    get_documentation_content net html_parser css_match lookalike_url w
      = get_page_content net html_parser css_match lookalike_url w ∧
    sent (get_documentation_content net html_parser css_match lookalike_url w).2
      = sent w ++ [Request lookalike_url ∅].
Proof.
  split; [reflexivity|]. split; [discriminate|]. split; [discriminate|].
  intros net html_parser css_match w.
  assert (get_documentation_content net html_parser css_match lookalike_url w
          = get_page_content net html_parser css_match lookalike_url w) as Heq.
  { unfold get_documentation_content, lookalike_url. simpl.
    unfold bind, ret.
    by destruct (get_page_content net html_parser css_match _ w). }
  split; [exact Heq|]. by rewrite Heq, get_page_content_sent.
Qed.

(** ** Fetching a page: length of the answer *)

(** C3, as amended.  When the fetch meets no fault (a page of any size
    with status 200, or another status of at most three digits) the
    returned string has at most 5000 characters.  When it meets a fault,
    the returned string is the error prefix followed by the whole fault
    description: 24 characters more than the description, however long
    that is. *)
Theorem get_page_content_length net html_parser css_match url w :
  let r := net (Request url ∅) in
  let out := (get_page_content net html_parser css_match url w).1 in
  (∀ status js tx, r = Response status js tx → 0 ≤ status < 1000) →
  match fault_text html_parser r with
  | None => (PyStr.len out ≤ 5000)%nat
  | Some e =>
      out = "Error fetching content: " +:+ e ∧ PyStr.len out = (24 + PyStr.len e)%nat
  end.
Proof.
  intros r out Hstatus. subst r out.
  unfold get_page_content, bind, get_session, session_get, fault_text, ret.
  cbn [session sent].
  destruct (net _) as [e|st js tx]; cbn [fst].
  - split; [done|]. by rewrite len_append.
  - destruct (Z.eqb_spec st 200) as [->|Hne].
    + destruct tx as [e|html]; cbn [fst].
      * split; [done|]. by rewrite len_append.
      * destruct (html_parser html) as [e|soup]; cbn [fst].
        -- split; [done|]. by rewrite len_append.
        -- apply len_take.
    + cbn [fst]. rewrite len_append.
      pose proof (len_of_int_status st (Hstatus _ _ _ eq_refl)).
      change (PyStr.len "Error fetching content: HTTP ") with 29%nat. lia.
Qed.

Lemma get_page_content_length_witness :
  (PyStr.len (get_page_content (λ _, Response 404 (inl "no json") (inl "not read"))
                parser_article css_by_name
                "https://learn.microsoft.com/en-us/azure" w0).1 ≤ 5000)%nat.
Proof.
  apply (get_page_content_length (λ _, Response 404 (inl "no json") (inl "not read"))
           parser_article css_by_name "https://learn.microsoft.com/en-us/azure" w0).
  intros status js tx [= <- _ _]. lia.
Defined.

(** C3 as stated fails on a fault with a long description: the error
    string is not cut at 5000 characters. *)
Lemma get_page_content_length_cex :
  ¬ (∀ net html_parser css_match url w,
       (PyStr.len (get_page_content net html_parser css_match url w).1 ≤ 5000)%nat).
Proof.
  intros H.
  specialize (H (net_down (filler 5000)) parser_article css_by_name
                "https://learn.microsoft.com/en-us/azure" w0).
  change (get_page_content _ _ _ _ w0).1
    with ("Error fetching content: " +:+ filler 5000) in H.
  rewrite len_append in H.
  assert (PyStr.len (filler 5000) = 5000%nat) as Hlen by (vm_compute; reflexivity).
  rewrite Hlen in H. change (PyStr.len "Error fetching content: ") with 24%nat in H. lia.
Qed.

(** ** Document trees *)

Section TreeFacts.

Variable css_match : string → string → gmap string attr → bool.
Variable selector : string.

Lemma filter_keep_cons c cs :
  filter (Soup.keeps css_match selector) (c :: cs)
    = if Soup.matches css_match selector c
      then filter (Soup.keeps css_match selector) cs
      else c :: filter (Soup.keeps css_match selector) cs.
Proof.
  rewrite filter_cons. case_decide as Hc; unfold Soup.keeps in Hc.
  - by rewrite Hc.
  - by apply not_false_is_true in Hc as ->.
Qed.

Lemma decompose_selected_tag name attrs cs :
  Soup.decompose_selected css_match selector (Tag name attrs cs)
    = Tag name attrs
        (Soup.decompose_selected css_match selector
           <$> filter (Soup.keeps css_match selector) cs).
Proof.
  simpl. f_equal. induction cs as [|c cs IH]; [done|].
  rewrite filter_keep_cons, IH.
  by destruct (Soup.matches css_match selector c).
Qed.

Lemma matches_decompose_selected n :
  Soup.matches css_match selector (Soup.decompose_selected css_match selector n)
    = Soup.matches css_match selector n.
Proof. by destruct n. Qed.

(** Once the selected nodes are decomposed, the selector finds
    nothing below the element. *)
Lemma select_decompose_selected n :
  Soup.select css_match selector (Soup.decompose_selected css_match selector n) = [].
Proof.
  induction n as [k s|name attrs cs IH] using Soup.node_forall_ind; [done|].
  rewrite decompose_selected_tag. unfold Soup.select. simpl.
  induction cs as [|c cs IHcs]; [done|].
  apply Forall_cons in IH as [IHc IH]. specialize (IHcs IH).
  rewrite filter_cons. case_decide as Hc; [|done].
  rewrite fmap_cons. cbn [flat_map app].
  rewrite filter_cons, filter_app, IHcs, matches_decompose_selected.
  unfold Soup.keeps in Hc. case_decide; [congruence|].
  unfold Soup.select in IHc. by rewrite IHc.
Qed.

Lemma same_outside_tag name1 attrs1 cs1 name2 attrs2 cs2 :
  Soup.same_outside css_match selector (Tag name1 attrs1 cs1) (Tag name2 attrs2 cs2)
  ↔ name1 = name2 ∧ attrs1 = attrs2 ∧
    (css_match selector name1 attrs1 = true ∨
     Forall2 (Soup.same_outside css_match selector) cs1 cs2).
Proof.
  simpl. do 2 (apply and_iff_compat_l). apply or_iff_compat_l.
  revert cs2. induction cs1 as [|c1 cs1 IH]; intros [|c2 cs2].
  - split; [constructor | done].
  - split; [done | inversion 1].
  - split; [done | inversion 1].
  - rewrite IH, Forall2_cons. done.
Qed.

Lemma same_outside_matches n1 n2 :
  Soup.same_outside css_match selector n1 n2 →
  Soup.matches css_match selector n1 = Soup.matches css_match selector n2.
Proof.
  destruct n1, n2; try done. intros [-> [-> _]]%same_outside_tag. done.
Qed.

Lemma decompose_selected_same_outside n1 :
  ∀ n2,
    Soup.same_outside css_match selector n1 n2 →
    Soup.matches css_match selector n1 = false →
    Soup.decompose_selected css_match selector n1
      = Soup.decompose_selected css_match selector n2.
Proof.
  induction n1 as [k s|name attrs cs IH] using Soup.node_forall_ind;
    intros [k2 s2|name2 attrs2 cs2]; try done.
  - by intros [-> ->].
  - intros (-> & -> & Hsame)%same_outside_tag Hkeep.
    destruct Hsame as [Hcut|Hsame]; [simpl in Hkeep; congruence|].
    rewrite !decompose_selected_tag. f_equal. clear Hkeep.
    induction Hsame as [|c1 c2 cs1 cs2 Hc Hcs IHcs]; [done|].
    apply Forall_cons in IH as [IHc IH]. specialize (IHcs IH).
    rewrite !filter_keep_cons, <- (same_outside_matches _ _ Hc).
    destruct (Soup.matches css_match selector c1) eqn:Hm; [done|].
    rewrite !fmap_cons, IHcs. f_equal. by apply IHc.
Qed.

(** What lies below the selected nodes of a region has no part in the
    tree that is left. *)
Lemma decompose_selected_same_region e1 e2 :
  Soup.same_region css_match selector e1 e2 →
  Soup.decompose_selected css_match selector e1
    = Soup.decompose_selected css_match selector e2.
Proof.
  destruct e1 as [|name1 attrs1 cs1], e2 as [|name2 attrs2 cs2]; try done.
  intros (-> & -> & Hsame). rewrite !decompose_selected_tag. f_equal.
  induction Hsame as [|c1 c2 cs1 cs2 Hc Hcs IHcs]; [done|].
  rewrite !filter_keep_cons, <- (same_outside_matches _ _ Hc).
  destruct (Soup.matches css_match selector c1) eqn:Hm; [done|].
  rewrite !fmap_cons, IHcs. f_equal. by apply decompose_selected_same_outside.
Qed.

Lemma extract_content_skip soup pre rest :
  Forall (λ s, Soup.select_one css_match s soup = None) pre →
  extract_content css_match soup (pre ++ rest) = extract_content css_match soup rest.
Proof.
  induction 1 as [|s pre Hs _ IH]; [done|]. simpl. by rewrite Hs.
Qed.

Lemma get_page_content_region
    net html_parser url w js html soup pre sel post element :
  net (Request url ∅) = Response 200 js (inr html) →
  html_parser html = inr soup →
  content_selectors = pre ++ sel :: post →
  Forall (λ s, Soup.select_one css_match s soup = None) pre →
  Soup.select_one css_match sel soup = Some element →
  (get_page_content net html_parser css_match url w).1
    = PyStr.take 5000
        (Soup.get_text newline
           (Soup.decompose_selected css_match unwanted_selector element)).
Proof.
  intros Hnet Hparse Hsels Hpre Hsel.
  rewrite (get_page_content_ok net html_parser css_match url w js html soup Hnet Hparse).
  rewrite Hsels, (extract_content_skip soup pre (sel :: post) Hpre).
  simpl. by rewrite Hsel.
Qed.

End TreeFacts.

(** ** Fetching a page: the content region *)

(** C5.  With status 200 the selectors are tried in the order
    [main[role="main"]], [.content], [article], [#main-content].  The
    first one that finds an element decides the answer, whatever the
    later ones would find; when none finds an element the answer is the
    empty string. *)
Theorem get_page_content_first_selector net html_parser css_match url w js html soup :
  net (Request url ∅) = Response 200 js (inr html) →
  html_parser html = inr soup →
  let out := (get_page_content net html_parser css_match url w).1 in
  content_selectors
    = [ "main[role=" +:+ dquote +:+ "main" +:+ dquote +:+ "]";
        ".content"; "article"; "#main-content" ] ∧
  (∀ pre selector post element,
     content_selectors = pre ++ selector :: post →
     Forall (λ s, Soup.select_one css_match s soup = None) pre →
     Soup.select_one css_match selector soup = Some element →
     out = PyStr.take 5000
             (Soup.get_text newline
                (Soup.decompose_selected css_match unwanted_selector element))) ∧
  (Forall (λ s, Soup.select_one css_match s soup = None) content_selectors →
   out = "").
Proof.
  intros Hnet Hparse out. subst out.
  split; [reflexivity|]. split.
  - intros pre selector post element Hsels Hpre Hsel.
    by apply (get_page_content_region css_match net html_parser url w js html soup
                pre selector post element).
  - intros Hnone.
    rewrite (get_page_content_ok net html_parser css_match url w js html soup
               Hnet Hparse).
    rewrite <- (app_nil_r content_selectors).
    by rewrite (extract_content_skip css_match soup content_selectors [] Hnone).
Qed.

Lemma get_page_content_first_selector_witness :
  (get_page_content net_page parser_page css_reference
     "https://learn.microsoft.com/en-us/azure" w0).1
    = PyStr.take 5000
        (Soup.get_text newline
           (Soup.decompose_selected css_reference unwanted_selector article_of_page)).
Proof.
  refine (proj1 (proj2 (get_page_content_first_selector net_page parser_page
                          css_reference "https://learn.microsoft.com/en-us/azure" w0
                          (inl "not json") "<html>" page_with_nav eq_refl eq_refl))
            [ "main[role=" +:+ dquote +:+ "main" +:+ dquote +:+ "]"; ".content" ]
            "article" ["#main-content"] article_of_page eq_refl _ eq_refl).
  repeat constructor.
Defined.

(** C4.  With status 200, every element below the chosen content region
    that the selector [nav, .breadcrumb, .alert, .feedback-section]
    matches is taken out, with all it contains, before the text is
    collected: the answer is the text of the pruned region, nothing the
    selector matches is left in the pruned region, and the answer is the
    same for any region that differs only below such elements. *)
Theorem get_page_content_drops_unwanted
    net html_parser css_match url w js html soup pre selector post element :
  net (Request url ∅) = Response 200 js (inr html) →
  html_parser html = inr soup →
  content_selectors = pre ++ selector :: post →
  Forall (λ s, Soup.select_one css_match s soup = None) pre →
  Soup.select_one css_match selector soup = Some element →
  let pruned := Soup.decompose_selected css_match unwanted_selector element in
  (get_page_content net html_parser css_match url w).1
    = PyStr.take 5000 (Soup.get_text newline pruned) ∧
  Soup.select css_match unwanted_selector pruned = [] ∧
  ∀ element',
    Soup.same_region css_match unwanted_selector element element' →
    PyStr.take 5000
      (Soup.get_text newline
         (Soup.decompose_selected css_match unwanted_selector element'))
      = (get_page_content net html_parser css_match url w).1.
Proof.
  intros Hnet Hparse Hsels Hpre Hsel pruned.
  pose proof (get_page_content_region css_match net html_parser url w js html soup
                pre selector post element Hnet Hparse Hsels Hpre Hsel) as Hfirst.
  split; [exact Hfirst|]. split.
  - apply select_decompose_selected.
  - intros element' Hsame. rewrite Hfirst.
    by rewrite (decompose_selected_same_region css_match unwanted_selector
                  element element' Hsame).
Qed.

Lemma get_page_content_drops_unwanted_witness :
  (get_page_content net_page parser_page css_reference
     "https://learn.microsoft.com/en-us/azure" w0).1
    = PyStr.take 5000
        (Soup.get_text newline
           (Soup.decompose_selected css_reference unwanted_selector article_of_page)) ∧
  (get_page_content net_page parser_page css_reference
     "https://learn.microsoft.com/en-us/azure" w0).1
    = "Azure Functions" +:+ newline +:+ "Run code on demand.".
Proof.
  split; [|vm_compute; reflexivity].
  refine (proj1 (get_page_content_drops_unwanted net_page parser_page
                   css_reference "https://learn.microsoft.com/en-us/azure" w0
                   (inl "not json") "<html>" page_with_nav
                   [ "main[role=" +:+ dquote +:+ "main" +:+ dquote +:+ "]"; ".content" ]
                   "article" ["#main-content"] article_of_page
                   eq_refl eq_refl eq_refl _ eq_refl)).
  repeat constructor.
Defined.

(** ** Code examples *)

Section Examples.

Lemma text_or_absent_get d key :
  text_or_absent (d !! key) →
  default (VStr "") (d !! key) = VStr (text_field (VDict d) key).
Proof.
  unfold text_field, field. by destruct (d !! key) as [[]|].
Qed.

Lemma any_keyword_record r kws :
  search_record r →
  any_keyword r kws = inr (existsb (keyword_hit r) kws).
Proof.
  destruct r as [| | | | |d]; try done. intros [Ht Hd].
  induction kws as [|kw kws IH]; [done|].
  cbn [any_keyword existsb py_get rbind].
  rewrite (text_or_absent_get d "title" Ht), (text_or_absent_get d "description" Hd).
  cbn [py_lower rbind]. unfold keyword_hit at 1.
  destruct (PyStr.contains kw (PyStr.lower (text_field (VDict d) "title"))); [done|].
  cbn [rbind].
  destruct (PyStr.contains kw (PyStr.lower (text_field (VDict d) "description")));
    [done|].
  exact IH.
Qed.

Lemma keyword_in_spec r : keyword_in r = true ↔ mentions_keyword r.
Proof.
  unfold keyword_in, mentions_keyword. rewrite existsb_exists. split.
  - intros (kw & Hin & Hhit). exists kw. split; [by apply list_elem_of_In|].
    unfold keyword_hit in Hhit. apply orb_true_iff in Hhit.
    by rewrite <- !contains_spec.
  - intros (kw & Hin & Hhit). exists kw. split; [by apply list_elem_of_In|].
    unfold keyword_hit. apply orb_true_iff. by rewrite !contains_spec.
Qed.

Lemma code_example_record r :
  search_record r → code_example r = inr (example_entry r).
Proof. by destruct r. Qed.

Lemma filter_examples_records rs :
  Forall search_record rs →
  filter_examples rs
    = inr (example_entry <$> filter (λ r, keyword_in r = true) rs).
Proof.
  induction 1 as [|r rs Hr _ IH]; [done|].
  cbn [filter_examples]. rewrite (any_keyword_record r _ Hr). cbn [rbind].
  rewrite filter_cons. fold (keyword_in r).
  destruct (keyword_in r) eqn:Hhit.
  - rewrite (code_example_record r Hr), IH. cbn [rbind].
    by rewrite decide_True.
  - by rewrite IH, decide_False.
Qed.

End Examples.

(** C7, as amended.  From a sequence of search records, each a mapping
    whose title and description, when present, are strings,
    [find_code_examples] keeps a record if and only if its title or its
    description contains, letter case set aside, one of "example",
    "tutorial", "sample", "quickstart", "getting started"; the kept
    records come in the order of the sequence and every other record is
    left out. *)
Theorem find_code_examples_filter net technology programming_language scenario w rs :
  (search_docs net (example_query technology programming_language scenario)
     "" "en-us" 5 w).1 = VList rs →
  Forall search_record rs →
  (find_code_examples net technology programming_language scenario w).1
    = VList (example_entry <$> filter (λ r, keyword_in r = true) rs) ∧
  (∀ r, keyword_in r = true ↔ mentions_keyword r) ∧
  example_keywords = ["example"; "tutorial"; "sample"; "quickstart"; "getting started"].
Proof.
  intros Hsearch Hrs. split; [|split; [apply keyword_in_spec | reflexivity]].
  unfold find_code_examples, bind.
  destruct (search_docs net _ "" "en-us" 5 w) as [results w']. simpl in Hsearch.
  subst results. cbn [py_iter rbind].
  by rewrite (filter_examples_records rs Hrs).
Qed.

(** Outside the data model the tool answers with its error entry: a
    record whose description is [null] stops the whole call once a
    keyword is not found in its title. *)
Example find_code_examples_malformed :
  (find_code_examples
     (λ _, Response 200
             (inr (VDict {[ "results" :=
                     VList [VDict (<["title" := VStr "Overview"]>
                                  (<["description" := VNone]> ∅))] ]}))
             (inl "not read"))
     "React" "" "" w0).1
    = error_list "Failed to find code examples: "
        "'NoneType' object has no attribute 'lower'".
Proof. vm_compute. reflexivity. Qed.

Lemma find_code_examples_filter_witness :
  (find_code_examples net_react "React" "" "authentication" w0).1
    = VList (example_entry <$> filter (λ r, keyword_in r = true) react_hits).
Proof.
  refine (proj1 (find_code_examples_filter net_react "React" "" "authentication" w0
                   react_hits eq_refl _)).
  repeat constructor.
Defined.

(** C7 as stated fails on a sequence of any search results: a record
    with "sample" in its title and a null description mentions a
    keyword, yet it is not kept; the whole call answers with the error
    entry. *)
Lemma find_code_examples_filter_cex :
  mentions_keyword sample_null_record ∧
  (find_code_examples net_sample_null "Azure" "" "" w0).1
    = error_list "Failed to find code examples: "
        "'NoneType' object has no attribute 'lower'" ∧
  ¬ (∀ net technology programming_language scenario w rs,
       (search_docs net (example_query technology programming_language scenario)
          "" "en-us" 5 w).1 = VList rs →
       (find_code_examples net technology programming_language scenario w).1
         = VList (example_entry <$> filter (λ r, keyword_in r = true) rs)).
Proof.
  assert ((find_code_examples net_sample_null "Azure" "" "" w0).1
          = error_list "Failed to find code examples: "
              "'NoneType' object has no attribute 'lower'") as Hrun
    by (vm_compute; reflexivity).
  split; [|split; [exact Hrun|]].
  - apply keyword_in_spec. reflexivity.
  - intros H.
    specialize (H net_sample_null "Azure" "" "" w0 [sample_null_record] eq_refl).
    rewrite Hrun in H.
    apply (f_equal (λ v, match v with
                         | VList (r :: _) => field r "error"
                         | _ => None
                         end)) in H.
    vm_compute in H. discriminate H.
Qed.

(** ** More on strings *)

Lemma str_app_cons (x : ascii) (a b : string) : String x a +:+ b = String x (a +:+ b).
Proof. reflexivity. Qed.


Lemma str_app_assoc (a b c : string) : (a +:+ b) +:+ c = a +:+ b +:+ c.
Proof. induction a as [|x a IH]; [done|]. by rewrite !str_app_cons, IH. Qed.

Lemma str_app_nil_r (a : string) : a +:+ "" = a.
Proof. induction a as [|x a IH]; [done|]. by rewrite str_app_cons, IH. Qed.

Lemma map_chars_app f (a b : string) :
  PyStr.map_chars f (a +:+ b) = PyStr.map_chars f a +:+ PyStr.map_chars f b.
Proof.
  induction a as [|x a IH]; [done|].
  rewrite str_app_cons. cbn [PyStr.map_chars]. by rewrite IH.
Qed.

Lemma lower_app (a b : string) : PyStr.lower (a +:+ b) = PyStr.lower a +:+ PyStr.lower b.
Proof. apply map_chars_app. Qed.

Lemma len_map_chars f (s : string) : PyStr.len (PyStr.map_chars f s) = PyStr.len s.
Proof. unfold PyStr.len. induction s as [|x s IH]; simpl; [done|]. by rewrite IH. Qed.

Lemma all_chars_app P (a b : string) :
  all_chars P (a +:+ b) = all_chars P a && all_chars P b.
Proof.
  induction a as [|x a IH]; [done|].
  rewrite str_app_cons. cbn [all_chars]. by rewrite IH, andb_assoc.
Qed.

Lemma all_chars_map P f (s : string) :
  (∀ c, P (f c) = true) → all_chars P (PyStr.map_chars f s) = true.
Proof. intros Hf. induction s as [|x s IH]; simpl; [done|]. by rewrite Hf, IH. Qed.

Lemma occurs_in_refl (kw : string) : occurs_in kw kw.
Proof. exists "", "". by rewrite str_app_nil_r. Qed.

Lemma occurs_in_app_l (kw a s : string) : occurs_in kw s → occurs_in kw (a +:+ s).
Proof.
  intros (x & y & ->). exists (a +:+ x), y. by rewrite str_app_assoc.
Qed.

Lemma occurs_in_app_r (kw s b : string) : occurs_in kw s → occurs_in kw (s +:+ b).
Proof.
  intros (x & y & ->). exists x, (y +:+ b). by rewrite !str_app_assoc.
Qed.

Lemma join_app_cons sep (xs : list string) (y : string) (ys : list string) :
  xs ≠ [] →
  PyStr.join sep (xs ++ y :: ys) = PyStr.join sep xs +:+ sep +:+ PyStr.join sep (y :: ys).
Proof.
  induction xs as [|x xs IH]; [done|]. intros _.
  destruct xs as [|x' xs]; [done|].
  change (PyStr.join sep ((x :: x' :: xs) ++ y :: ys))
    with (x +:+ sep +:+ PyStr.join sep ((x' :: xs) ++ y :: ys)).
  rewrite IH by done.
  change (PyStr.join sep (x :: x' :: xs)) with (x +:+ sep +:+ PyStr.join sep (x' :: xs)).
  by rewrite !str_app_assoc.
Qed.

Lemma slice_to_take {A} (l : list A) (k : Z) : ∃ n, slice_to l k = take n l.
Proof. unfold slice_to. destruct (k <? 0); eauto. Qed.

(** ** The search client, further *)

(** X1.  When the search fails, whatever [max_results] is, the client
    returns a prefix of the three synthesized records: [min 3
    max_results] of them for a non-negative [max_results], [3 +
    max_results] of them (none below [-3]) for a negative one. *)
Theorem search_docs_fallback_prefix net q p l m w :
  search_failed (net (search_request q p l m)) →
  ∃ rs,
    (search_docs net q p l m w).1 = VList rs ∧
    rs `prefix_of` mock_results q p ∧
    length rs = Z.to_nat (if m <? 0 then 3 + m else Z.min 3 m) ∧
    (length rs ≤ 3)%nat.
Proof.
  intros Hfail. exists (slice_to (mock_results q p) m).
  split; [by apply search_docs_fallback|].
  unfold slice_to. change (Z.of_nat (length (mock_results q p))) with 3.
  destruct (Z.ltb_spec m 0) as [Hneg|Hpos].
  - split; [apply prefix_take|]. rewrite length_take.
    change (length (mock_results q p)) with 3%nat. lia.
  - split; [apply prefix_take|]. rewrite length_take.
    change (length (mock_results q p)) with 3%nat. lia.
Qed.

Lemma search_docs_fallback_prefix_witness :
  ∃ rs,
    (search_docs (net_down "timeout") "a" "" "en-us" (-2) w0).1 = VList rs ∧
    length rs = 1%nat.
Proof.
  destruct (search_docs_fallback_prefix (net_down "timeout") "a" "" "en-us" (-2) w0 I)
    as (rs & Hrun & _ & Hlen & _).
  exists rs. split; [exact Hrun | exact Hlen].
Defined.

(** X2.  A failed search never shows as an error of the tool:
    [search_microsoft_docs] returns the client's synthesized records as
    they are, no default substituted, and leaves the same world. *)
Theorem search_microsoft_docs_fallback net q p l m w :
  search_failed (net (search_request q p l (Z.min m 10))) →
  search_microsoft_docs net q p l m w = search_docs net q p l (Z.min m 10) w.
Proof.
  intros Hfail.
  pose proof (search_docs_fallback net q p l (Z.min m 10) w Hfail) as Hrun.
  unfold search_microsoft_docs, bind.
  destruct (search_docs net q p l (Z.min m 10) w) as [results w']. simpl in Hrun.
  subst results.
  destruct (slice_to_take (mock_results q p) (Z.min m 10)) as [n ->].
  cbn [py_iter]. unfold rbind at 1.
  by rewrite (format_mock_results q p n).
Qed.

Lemma search_microsoft_docs_fallback_witness :
  search_microsoft_docs (net_down "timeout") "Azure Functions" "azure" "en-us" 50 w0
    = search_docs (net_down "timeout") "Azure Functions" "azure" "en-us" 10 w0.
Proof.
  exact (search_microsoft_docs_fallback (net_down "timeout")
           "Azure Functions" "azure" "en-us" 50 w0 I).
Defined.

(** X3.  With status 200 and a decoded body, a JSON object gives the
    value under [results] as it is, or the empty list when the key is
    missing; any other JSON value (a list, a string, a number, null)
    has no [get] and gives the fallback records. *)
Theorem search_docs_live net q p l m w data tx :
  net (search_request q p l m) = Response 200 (inr data) tx →
  (search_docs net q p l m w).1
    = match data with
      | VDict d => default (VList []) (d !! "results")
      | _ => VList (slice_to (mock_results q p) m)
      end.
Proof.
  unfold search_docs, bind, get_session, session_get, search_request. simpl.
  intros ->. by destruct data.
Qed.

Lemma search_docs_live_witness :
  (search_docs (λ _, Response 200 (inr (VDict ∅)) (inl "not read"))
     "Azure Functions" "" "en-us" 5 w0).1 = VList [].
Proof.
  exact (search_docs_live (λ _, Response 200 (inr (VDict ∅)) (inl "not read"))
           "Azure Functions" "" "en-us" 5 w0 (VDict ∅) (inl "not read") eq_refl).
Defined.

(** X4.  Whatever the remote side answers, [search_docs] opens the
    session and issues exactly one request, to
    [https://learn.microsoft.com/api/search], carrying the query, the
    locale and [$top]; [products] is present exactly when the product
    is not the empty string, and no other parameter is sent. *)
Theorem search_docs_request net q p l m w :
  ∃ r,
    (search_docs net q p l m w).2 = {| session := true; sent := sent w ++ [r] |} ∧
    req_url r = "https://learn.microsoft.com/api/search" ∧
    req_params r !! "search" = Some (VStr q) ∧
    req_params r !! "locale" = Some (VStr l) ∧
    req_params r !! "$top" = Some (VInt m) ∧
    req_params r !! "products" = (if String.eqb p "" then None else Some (VStr p)) ∧
    dom (req_params r) ⊆ {[ "search"; "locale"; "$top"; "products" ]}.
Proof.
  exists (search_request q p l m). split; [apply search_docs_sent|].
  split; [reflexivity|].
  unfold search_request, search_params, truthy. cbn [req_params].
  destruct (String.eqb p ""); cbn [negb];
    (split; [reflexivity|]); (split; [reflexivity|]); (split; [reflexivity|]);
    (split; [reflexivity|]);
    rewrite !dom_insert_L, dom_empty_L; set_unfold; tauto.
Qed.

(** ** The search tool, further *)

Lemma format_results_dicts rs :
  Forall is_dict rs → format_results rs = inr (formatted_value <$> rs).
Proof.
  induction 1 as [|r rs Hr _ IH]; [done|].
  destruct r as [| | | | |d]; try done.
  cbn [format_results]. rewrite IH. reflexivity.
Qed.

Lemma format_results_bad pre v post :
  Forall is_dict pre → ¬ is_dict v →
  format_results (pre ++ v :: post) = inl (attribute_error v "get").
Proof.
  intros Hpre Hv. induction Hpre as [|r pre Hr _ IH].
  - by destruct v.
  - destruct r as [| | | | |d]; try done.
    change (format_results ((VDict d :: pre) ++ v :: post))
      with (rbind (format_results (pre ++ v :: post))
              (λ rest, inr (formatted_record d :: rest))).
    by rewrite IH.
Qed.

Lemma dom_formatted_record d :
  ∃ d', formatted_record d = VDict d' ∧
        dom d' = {[ "title"; "url"; "description"; "lastUpdated"; "product" ]}.
Proof.
  eexists. split; [reflexivity|].
  rewrite !dom_insert_L, dom_empty_L. set_unfold. tauto.
Qed.

(** X5.  When the search returns a list of mappings, the tool returns a
    list of the same length and order; each entry has exactly the keys
    title, url, description, lastUpdated and product, a key of the
    mapping keeping its value (whatever it is) and a missing one
    getting its default; every other key of the mapping is dropped. *)
Theorem search_microsoft_docs_formats net q p l m w rs :
  (search_docs net q p l (Z.min m 10) w).1 = VList rs →
  Forall is_dict rs →
  (search_microsoft_docs net q p l m w).1 = VList (formatted_value <$> rs) ∧
  length (formatted_value <$> rs) = length rs ∧
  Forall (λ v, ∃ d', v = VDict d' ∧
                     dom d' = {[ "title"; "url"; "description"; "lastUpdated"; "product" ]})
         (formatted_value <$> rs) ∧
  ∀ i d, rs !! i = Some (VDict d) →
         (formatted_value <$> rs) !! i
           = Some (VDict (<["title" := default (VStr "No title") (d !! "title")]>
                         (<["url" := default (VStr "") (d !! "url")]>
                         (<["description" :=
                              default (VStr "No description available") (d !! "description")]>
                         (<["lastUpdated" := default (VStr "Unknown") (d !! "lastUpdated")]>
                         (<["product" := default (VStr "General") (d !! "product")]>
                            ∅)))))).
Proof.
  intros Hsearch Hrs. repeat split.
  - unfold search_microsoft_docs, bind.
    destruct (search_docs net q p l (Z.min m 10) w) as [results w'].
    simpl in Hsearch. subst results. cbn [py_iter]. unfold rbind at 1.
    by rewrite (format_results_dicts rs Hrs).
  - apply length_fmap.
  - apply Forall_fmap. eapply Forall_impl; [exact Hrs|].
    intros [| | | | |d]; try done. intros _. apply dom_formatted_record.
  - intros i d Hi. by rewrite list_lookup_fmap, Hi.
Qed.

Lemma search_microsoft_docs_formats_witness :
  (search_microsoft_docs net_three_hits "Azure Functions" "" "en-us" 2 w0).1
    = VList (formatted_value <$> three_hits).
Proof.
  refine (proj1 (search_microsoft_docs_formats net_three_hits "Azure Functions" ""
                   "en-us" 2 w0 three_hits eq_refl _)).
  repeat constructor.
Defined.

(** X6.  A result the loop cannot format ends in the single error entry
    of the tool: the first element that is not a mapping stops the loop
    with its missing [get], and a [results] value that is null, a
    boolean or a number cannot be iterated at all. *)
Theorem search_microsoft_docs_error net q p l m w :
  (∀ pre v post,
     (search_docs net q p l (Z.min m 10) w).1 = VList (pre ++ v :: post) →
     Forall is_dict pre → ¬ is_dict v →
     (search_microsoft_docs net q p l m w).1
       = VList [VDict {[ "error" :=
           VStr ("Search failed: '" +:+ type_name v
                 +:+ "' object has no attribute 'get'") ]}]) ∧
  (∀ v,
     (search_docs net q p l (Z.min m 10) w).1 = v →
     v = VNone ∨ (∃ b, v = VBool b) ∨ (∃ i, v = VInt i) →
     (search_microsoft_docs net q p l m w).1
       = VList [VDict {[ "error" :=
           VStr ("Search failed: '" +:+ type_name v +:+ "' object is not iterable") ]}]).
Proof.
  split.
  - intros pre v post Hsearch Hpre Hv.
    unfold search_microsoft_docs, bind.
    destruct (search_docs net q p l (Z.min m 10) w) as [results w'].
    simpl in Hsearch. subst results. cbn [py_iter]. unfold rbind at 1.
    by rewrite (format_results_bad pre v post Hpre Hv).
  - intros v Hsearch Hv.
    unfold search_microsoft_docs, bind.
    destruct (search_docs net q p l (Z.min m 10) w) as [results w'].
    simpl in Hsearch. subst results.
    by destruct Hv as [->|[[b ->]|[i ->]]].
Qed.

Lemma search_microsoft_docs_error_witness :
  (search_microsoft_docs
     (λ _, Response 200 (inr (VDict {[ "results" := VList [VDict ∅; VInt 7] ]}))
             (inl "not read"))
     "Azure Functions" "" "en-us" 5 w0).1
    = VList [VDict {[ "error" :=
        VStr "Search failed: 'int' object has no attribute 'get'" ]}].
Proof.
  refine (proj1 (search_microsoft_docs_error
                   (λ _, Response 200
                           (inr (VDict {[ "results" := VList [VDict ∅; VInt 7] ]}))
                           (inl "not read"))
                   "Azure Functions" "" "en-us" 5 w0)
            [VDict ∅] (VInt 7) [] eq_refl _ _).
  - repeat constructor.
  - intros [].
Defined.

(** ** Code examples and API references, further *)

Lemma find_code_examples_sent net t lang sc w :
  (find_code_examples net t lang sc w).2
    = after_call (search_request (example_query t lang sc) "" "en-us" 5) w.
Proof.
  unfold find_code_examples, bind.
  pose proof (search_docs_sent net (example_query t lang sc) "" "en-us" 5 w) as Hs.
  destruct (search_docs net _ "" "en-us" 5 w) as [results w']. simpl in Hs.
  by destruct (rbind (py_iter results) _).
Qed.

Lemma example_query_closed t lang sc :
  example_query t lang sc
    = t +:+ (if String.eqb lang "" then "" else " " +:+ lang)
        +:+ (if String.eqb sc "" then "" else " " +:+ sc)
        +:+ " code example tutorial sample".
Proof.
  unfold example_query, truthy.
  destruct (String.eqb lang ""), (String.eqb sc ""); cbn [negb app PyStr.join];
    by rewrite ?str_app_assoc.
Qed.

Lemma example_query_mentions t lang sc :
  occurs_in "example" (PyStr.lower (example_query t lang sc)).
Proof.
  rewrite example_query_closed, !lower_app.
  do 3 apply occurs_in_app_l. by exists " code ", " tutorial sample".
Qed.

Lemma mock_results_examples q :
  occurs_in "example" (PyStr.lower q) →
  Forall search_record (mock_results q "") ∧
  filter (λ r, keyword_in r = true) (mock_results q "") = mock_results q "".
Proof.
  intros Hq. split; [by repeat constructor|].
  assert (∀ r, occurs_in "example" (PyStr.lower (text_field r "title")) →
               keyword_in r = true) as Hhit.
  { intros r Hr. apply orb_true_iff. left. apply orb_true_iff. left.
    by apply contains_spec. }
  unfold mock_results. rewrite !filter_cons, filter_nil.
  rewrite !decide_True; [done| | |]; apply Hhit.
  - change (text_field _ "title") with (q +:+ " - Code Examples").
    rewrite lower_app. by apply occurs_in_app_r.
  - change (text_field _ "title") with (q +:+ " - Getting Started Guide").
    rewrite lower_app. by apply occurs_in_app_r.
  - change (text_field _ "title") with ("Microsoft Documentation: " +:+ q).
    rewrite lower_app. by apply occurs_in_app_l.
Qed.

(** X7.  [find_code_examples] issues exactly one search, for at most 5
    results in locale en-us and without a product; the query is the
    technology, then the language and the scenario when they are not
    empty, then the four fixed words, single spaces between them. *)
Theorem find_code_examples_request net t lang sc w :
  (find_code_examples net t lang sc w).2
    = {| session := true;
         sent := sent w ++ [search_request (example_query t lang sc) "" "en-us" 5] |} ∧
  example_query t lang sc
    = t +:+ (if String.eqb lang "" then "" else " " +:+ lang)
        +:+ (if String.eqb sc "" then "" else " " +:+ sc)
        +:+ " code example tutorial sample" ∧
  req_params (search_request (example_query t lang sc) "" "en-us" 5) !! "products" = None.
Proof.
  split; [apply find_code_examples_sent|].
  split; [apply example_query_closed | reflexivity].
Qed.

(** X8.  When the search fails, [find_code_examples] returns all three
    synthesized records as code examples: their titles repeat the
    query, and the query always holds the word "example". *)
Theorem find_code_examples_fallback net t lang sc w :
  search_failed (net (search_request (example_query t lang sc) "" "en-us" 5)) →
  (find_code_examples net t lang sc w).1
    = VList (example_entry <$> mock_results (example_query t lang sc) "") ∧
  length (example_entry <$> mock_results (example_query t lang sc) "") = 3%nat.
Proof.
  intros Hfail. split; [|reflexivity].
  pose proof (search_docs_fallback net _ "" "en-us" 5 w Hfail) as Hrun.
  destruct (mock_results_examples _ (example_query_mentions t lang sc)) as [Hrec Hall].
  unfold find_code_examples, bind.
  destruct (search_docs net _ "" "en-us" 5 w) as [results w']. simpl in Hrun.
  subst results.
  change (slice_to (mock_results (example_query t lang sc) "") 5)
    with (mock_results (example_query t lang sc) "").
  cbn [py_iter rbind].
  by rewrite (filter_examples_records _ Hrec), Hall.
Qed.

Lemma find_code_examples_fallback_witness :
  (find_code_examples (net_down "timeout") "React" "" "authentication" w0).1
    = VList (example_entry
               <$> mock_results (example_query "React" "" "authentication") "").
Proof.
  exact (proj1 (find_code_examples_fallback (net_down "timeout")
                  "React" "" "authentication" w0 I)).
Defined.

Lemma get_api_reference_sent net a v lang w :
  (get_api_reference net a v lang w).2
    = after_call (search_request (a +:+ " API reference " +:+ v) "" "en-us" 3) w.
Proof.
  unfold get_api_reference, bind.
  pose proof (search_docs_sent net (a +:+ " API reference " +:+ v) "" "en-us" 3 w) as Hs.
  destruct (search_docs net _ "" "en-us" 3 w) as [results w']. simpl in Hs.
  by destruct (rbind (py_iter results) _).
Qed.

Lemma api_title_test_record r :
  titled_record r → api_title_test r = inr (api_title r).
Proof.
  destruct r as [| | | | |d]; try done. intros Ht.
  unfold api_title_test, api_title. cbn [py_get rbind].
  rewrite (text_or_absent_get d "title" Ht). cbn [py_lower rbind].
  by destruct (PyStr.contains "api" (PyStr.lower (text_field (VDict d) "title"))).
Qed.

Lemma filter_api_docs_records v rs :
  Forall titled_record rs →
  filter_api_docs v rs = inr (api_entry v <$> filter (λ r, api_title r = true) rs).
Proof.
  induction 1 as [|r rs Hr _ IH]; [done|].
  cbn [filter_api_docs]. rewrite (api_title_test_record r Hr). cbn [rbind].
  rewrite filter_cons.
  destruct (api_title r) eqn:Hhit.
  - rewrite IH, decide_True by done. by destruct r.
  - by rewrite IH, decide_False.
Qed.

(** X9.  From a list of records whose title, when present, is a
    string, [get_api_reference] keeps, in order, exactly those whose
    title contains "api" or "reference", letter case set aside; the
    description plays no part.  The answer names the API and the
    version, and each kept entry carries the version. *)
Theorem get_api_reference_filter net a v lang w rs :
  (search_docs net (a +:+ " API reference " +:+ v) "" "en-us" 3 w).1 = VList rs →
  Forall titled_record rs →
  (get_api_reference net a v lang w).1
    = VDict (<["api_name" := VStr a]>
            (<["version" := VStr v]>
            (<["documentation" :=
                 VList (api_entry v <$> filter (λ r, api_title r = true) rs)]> ∅))) ∧
  (∀ r, api_title r = true ↔
        occurs_in "api" (PyStr.lower (text_field r "title")) ∨
        occurs_in "reference" (PyStr.lower (text_field r "title"))).
Proof.
  intros Hsearch Hrs. split.
  - unfold get_api_reference, bind.
    destruct (search_docs net _ "" "en-us" 3 w) as [results w']. simpl in Hsearch.
    subst results. cbn [py_iter rbind].
    by rewrite (filter_api_docs_records v rs Hrs).
  - intros r. unfold api_title. by rewrite orb_true_iff, !contains_spec.
Qed.

Lemma get_api_reference_filter_witness :
  (get_api_reference net_graph "Microsoft Graph" "latest" "fr-fr" w0).1
    = api_answer "Microsoft Graph" "latest"
        (api_entry "latest" <$> filter (λ r, api_title r = true) graph_hits).
Proof.
  refine (proj1 (get_api_reference_filter net_graph "Microsoft Graph" "latest" "fr-fr"
                   w0 graph_hits eq_refl _)).
  repeat constructor.
Defined.

(** X10.  [get_api_reference] issues exactly one search, for the text
    "<api_name> API reference <version>", at most 3 results, without a
    product, and always in locale en-us: the [language] argument
    changes neither the request nor the answer. *)
Theorem get_api_reference_request net a v lang w :
  (get_api_reference net a v lang w).2
    = {| session := true;
         sent := sent w ++ [search_request (a +:+ " API reference " +:+ v) "" "en-us" 3] |} ∧
  req_params (search_request (a +:+ " API reference " +:+ v) "" "en-us" 3) !! "locale"
    = Some (VStr "en-us") ∧
  ∀ lang', get_api_reference net a v lang' w = get_api_reference net a v lang w.
Proof.
  split; [apply get_api_reference_sent|]. split; reflexivity.
Qed.

Lemma mock_results_api q :
  occurs_in "api" (PyStr.lower q) →
  Forall titled_record (mock_results q "") ∧
  filter (λ r, api_title r = true) (mock_results q "") = mock_results q "".
Proof.
  intros Hq. split; [by repeat constructor|].
  assert (∀ r, occurs_in "api" (PyStr.lower (text_field r "title")) →
               api_title r = true) as Hhit.
  { intros r Hr. apply orb_true_iff. left. by apply contains_spec. }
  unfold mock_results. rewrite !filter_cons, filter_nil.
  rewrite !decide_True; [done| | |]; apply Hhit.
  - change (text_field _ "title") with (q +:+ " - Code Examples").
    rewrite lower_app. by apply occurs_in_app_r.
  - change (text_field _ "title") with (q +:+ " - Getting Started Guide").
    rewrite lower_app. by apply occurs_in_app_r.
  - change (text_field _ "title") with ("Microsoft Documentation: " +:+ q).
    rewrite lower_app. by apply occurs_in_app_l.
Qed.

(** X11.  When the search fails, [get_api_reference] reports all three
    synthesized records as API documentation: their titles repeat the
    query, which holds the word "API". *)
Theorem get_api_reference_fallback net a v lang w :
  search_failed (net (search_request (a +:+ " API reference " +:+ v) "" "en-us" 3)) →
  (get_api_reference net a v lang w).1
    = api_answer a v
        (api_entry v <$> mock_results (a +:+ " API reference " +:+ v) "") ∧
  length (api_entry v <$> mock_results (a +:+ " API reference " +:+ v) "") = 3%nat.
Proof.
  intros Hfail. split; [|reflexivity].
  pose proof (search_docs_fallback net _ "" "en-us" 3 w Hfail) as Hrun.
  assert (occurs_in "api" (PyStr.lower (a +:+ " API reference " +:+ v))) as Hq.
  { rewrite !lower_app. apply occurs_in_app_l, occurs_in_app_r.
    by exists " ", " reference ". }
  destruct (mock_results_api _ Hq) as [Hrec Hall].
  unfold get_api_reference, bind.
  destruct (search_docs net _ "" "en-us" 3 w) as [results w']. simpl in Hrun.
  subst results.
  change (slice_to (mock_results (a +:+ " API reference " +:+ v) "") 3)
    with (mock_results (a +:+ " API reference " +:+ v) "").
  cbn [py_iter rbind].
  by rewrite (filter_api_docs_records v _ Hrec), Hall.
Qed.

Lemma get_api_reference_fallback_witness :
  (get_api_reference (net_down "timeout") "Microsoft Graph" "v1.0" "en-us" w0).1
    = api_answer "Microsoft Graph" "v1.0"
        (api_entry "v1.0"
           <$> mock_results ("Microsoft Graph" +:+ " API reference " +:+ "v1.0") "").
Proof.
  exact (proj1 (get_api_reference_fallback (net_down "timeout")
                  "Microsoft Graph" "v1.0" "en-us" w0 I)).
Defined.

(** ** Fetching a page, further *)

(** X12.  Whatever the remote side answers, [get_page_content] opens
    the session and issues exactly one request, to the url as given and
    without parameters.  When the status is 200 and the body was read
    and parsed, its answer is the extracted content cut at 5000
    characters; in every other case its answer starts with "Error
    fetching content: ". *)
Theorem get_page_content_outcome net html_parser css_match url w :
  (get_page_content net html_parser css_match url w).2
    = {| session := true; sent := sent w ++ [Request url ∅] |} ∧
  (∀ js html soup,
     net (Request url ∅) = Response 200 js (inr html) →
     html_parser html = inr soup →
     (get_page_content net html_parser css_match url w).1
       = PyStr.take 5000 (extract_content css_match soup content_selectors)) ∧
  ((¬ ∃ js html soup,
        net (Request url ∅) = Response 200 js (inr html) ∧
        html_parser html = inr soup) →
   ∃ detail,
     (get_page_content net html_parser css_match url w).1
       = "Error fetching content: " +:+ detail).
Proof.
  split; [apply get_page_content_sent|]. split.
  - intros js html soup Hnet Hparse.
    by apply (get_page_content_ok net html_parser css_match url w js html soup).
  - intros Hnot.
    unfold get_page_content, bind, get_session, session_get, ret. cbn [session sent].
    destruct (net _) as [e|st js tx]; cbn [fst]; [by exists e|].
    destruct (Z.eqb_spec st 200) as [->|Hne].
    + destruct tx as [e|html]; [by exists e|].
      destruct (html_parser html) as [e|soup] eqn:Hparse; [by exists e|].
      destruct Hnot. by exists js, html, soup.
    + by exists ("HTTP " +:+ PyStr.of_int st).
Qed.

Lemma get_page_content_outcome_witness :
  (get_page_content net_page parser_page css_reference
     "https://learn.microsoft.com/en-us/azure" w0).1
    = PyStr.take 5000 (extract_content css_reference page_with_nav content_selectors) ∧
  ∃ detail,
    (get_page_content (net_down "timeout") parser_page css_reference
       "https://learn.microsoft.com/en-us/azure" w0).1
      = "Error fetching content: " +:+ detail.
Proof.
  split.
  - exact (proj1 (proj2 (get_page_content_outcome net_page parser_page css_reference
                           "https://learn.microsoft.com/en-us/azure" w0))
             (inl "not json") "<html>" page_with_nav eq_refl eq_refl).
  - apply (proj2 (proj2 (get_page_content_outcome (net_down "timeout") parser_page
                           css_reference "https://learn.microsoft.com/en-us/azure" w0))).
    intros (js & html & soup & Hnet & _). discriminate Hnet.
Defined.

(** X13.  The only requests [get_documentation_content] can issue go to
    the url it was given, and only when that url starts with one of the
    two accepted prefixes. *)
Theorem get_documentation_content_requests net html_parser css_match url w :
  sent (get_documentation_content net html_parser css_match url w).2 = sent w ∨
  (sent (get_documentation_content net html_parser css_match url w).2
     = sent w ++ [Request url ∅] ∧
   ((∃ r, url = "https://docs.microsoft.com" +:+ r) ∨
    (∃ r, url = "https://learn.microsoft.com" +:+ r))).
Proof.
  unfold get_documentation_content.
  destruct (PyStr.startswith url "https://docs.microsoft.com") eqn:Hd;
    [|destruct (PyStr.startswith url "https://learn.microsoft.com") eqn:Hl].
  - right. cbn [orb negb]. split; [|left; by apply startswith_spec].
    unfold bind, ret.
    pose proof (get_page_content_sent net html_parser css_match url w) as Hs.
    destruct (get_page_content net html_parser css_match url w) as [out w'].
    simpl in *. by subst w'.
  - right. cbn [orb negb]. split; [|right; by apply startswith_spec].
    unfold bind, ret.
    pose proof (get_page_content_sent net html_parser css_match url w) as Hs.
    destruct (get_page_content net html_parser css_match url w) as [out w'].
    simpl in *. by subst w'.
  - by left.
Qed.







(** ** The synthesized records, further *)

Lemma map_chars_compose f g (s : string) :
  PyStr.map_chars f (PyStr.map_chars g s) = PyStr.map_chars (λ c, f (g c)) s.
Proof. induction s as [|x s IH]; simpl; [done|]. by rewrite IH. Qed.

Lemma slug_safe (q : string) : all_chars url_safe_char (slug q) = true.
Proof.
  unfold slug, PyStr.replace_char, PyStr.lower. rewrite map_chars_compose.
  apply all_chars_map. intros c.
  destruct c as [[] [] [] [] [] [] [] []]; reflexivity.
Qed.

(** X15.  Every record of a failed search is a mapping with exactly the
    keys title, url, description, lastUpdated and product.  Its url
    holds no space and no capital letter A-Z, whatever the query; its
    product is the one asked for, or "General" when the product is the
    empty string. *)
Theorem search_docs_fallback_shape net q p l m w :
  search_failed (net (search_request q p l m)) →
  ∃ rs,
    (search_docs net q p l m w).1 = VList rs ∧
    Forall (λ r, ∃ d u,
              r = VDict d ∧
              dom d = {[ "title"; "url"; "description"; "lastUpdated"; "product" ]} ∧
              d !! "url" = Some (VStr u) ∧
              all_chars url_safe_char u = true ∧
              d !! "product" = Some (VStr (if String.eqb p "" then "General" else p)))
           rs.
Proof.
  intros Hfail. exists (slice_to (mock_results q p) m).
  split; [by apply search_docs_fallback|].
  destruct (slice_to_take (mock_results q p) m) as [n ->].
  apply Forall_take.
  assert (or_general p = VStr (if String.eqb p "" then "General" else p)) as Hprod.
  { unfold or_general, truthy. by destruct (String.eqb p ""). }
  pose proof (slug_safe q) as Hslug.
  unfold mock_results. rewrite Hprod.
  repeat apply Forall_cons_2; [| | |apply Forall_nil_2];
    (eexists _, _; split; [reflexivity|]; split;
     [rewrite !dom_insert_L, dom_empty_L; set_unfold; tauto|];
     split; [reflexivity|]; split; [|reflexivity]).
  - rewrite !all_chars_app, Hslug. reflexivity.
  - rewrite !all_chars_app, Hslug. reflexivity.
  - rewrite !all_chars_app, Hslug. reflexivity.
Qed.

Lemma search_docs_fallback_shape_witness :
  ∃ rs,
    (search_docs (net_down "timeout") "Azure Functions" "" "en-us" 2 w0).1 = VList rs ∧
    Forall (λ r, ∃ d u,
              r = VDict d ∧
              dom d = {[ "title"; "url"; "description"; "lastUpdated"; "product" ]} ∧
              d !! "url" = Some (VStr u) ∧
              all_chars url_safe_char u = true ∧
              d !! "product" = Some (VStr "General"))
           rs.
Proof.
  exact (search_docs_fallback_shape (net_down "timeout")
           "Azure Functions" "" "en-us" 2 w0 I).
Defined.

(** ** The category listing *)

Lemma join_empty_cons (p : string) (rest : list string) :
  PyStr.join "" (p :: rest) = p +:+ PyStr.join "" rest.
Proof. destruct rest; [by rewrite str_app_nil_r | reflexivity]. Qed.

Lemma join_empty_app (xs ys : list string) :
  PyStr.join "" (xs ++ ys) = PyStr.join "" xs +:+ PyStr.join "" ys.
Proof.
  induction xs as [|x xs IH]; [done|].
  rewrite <- app_comm_cons, !join_empty_cons, IH. by rewrite str_app_assoc.
Qed.

Lemma occurs_in_join (x : string) (l : list string) :
  x ∈ l → occurs_in x (PyStr.join "" l).
Proof.
  intros (l1 & l2 & ->)%list_elem_of_split.
  rewrite join_empty_app, join_empty_cons. by eexists _, _.
Qed.

Lemma format_items_spec (items : list string) :
  ∀ formatted,
    format_items formatted items
      = formatted +:+ PyStr.join "" ((λ item, "- " +:+ item +:+ newline) <$> items).
Proof.
  unfold format_items.
  induction items as [|item items IH]; intros formatted.
  - by rewrite str_app_nil_r.
  - cbn [fold_left]. rewrite IH, fmap_cons, join_empty_cons.
    by rewrite !str_app_assoc.
Qed.

Lemma format_categories_spec (table : list (string * list string)) :
  format_categories table = PyStr.join "" (category_block <$> table).
Proof.
  unfold format_categories.
  enough (∀ acc,
            fold_left
              (λ acc entry,
                 format_items (acc +:+ newline +:+ "## " +:+ entry.1 +:+ newline) entry.2)
              table acc
            = acc +:+ PyStr.join "" (category_block <$> table)) as H by apply H.
  induction table as [|entry table IH]; intros acc.
  - by rewrite str_app_nil_r.
  - cbn [fold_left]. rewrite IH, format_items_spec, fmap_cons, join_empty_cons.
    unfold category_block. by rewrite !str_app_assoc.
Qed.

(** X16.  The listing is the blocks of the categories, one after the
    other in the order of the table; the block of a category is its
    heading line followed by one bullet line per item.  So every
    category of the table shows with its whole block, and every item of
    it with its bullet line. *)
Theorem get_documentation_categories_complete category items :
  (category, items) ∈ categories →
  get_documentation_categories = PyStr.join "" (category_block <$> categories) ∧
  occurs_in
    (newline +:+ "## " +:+ category +:+ newline
     +:+ PyStr.join "" ((λ item, "- " +:+ item +:+ newline) <$> items))
    get_documentation_categories ∧
  ∀ item, item ∈ items →
          occurs_in ("- " +:+ item +:+ newline) get_documentation_categories.
Proof.
  intros Hin. unfold get_documentation_categories.
  rewrite format_categories_spec. split; [done|].
  assert (occurs_in (category_block (category, items))
            (PyStr.join "" (category_block <$> categories))) as Hblock.
  { apply occurs_in_join. by apply (list_elem_of_fmap_2 category_block) in Hin. }
  split; [exact Hblock|].
  intros item Hitem.
  destruct Hblock as (a & b & ->).
  apply occurs_in_app_l, occurs_in_app_r.
  unfold category_block. cbn [fst snd].
  do 4 apply occurs_in_app_l.
  apply occurs_in_join.
  by apply (list_elem_of_fmap_2 (λ item, "- " +:+ item +:+ newline)) in Hitem.
Qed.

Lemma get_documentation_categories_complete_witness :
  occurs_in ("- " +:+ "Power BI" +:+ newline) get_documentation_categories.
Proof.
  refine (proj2 (proj2 (get_documentation_categories_complete "Power Platform"
                          ["Power Apps"; "Power Automate"; "Power BI"] _))
            "Power BI" _).
  - unfold categories. do 5 apply list_elem_of_further. apply list_elem_of_here.
  - do 2 apply list_elem_of_further. apply list_elem_of_here.
Defined.

(** ** The life of the session *)

Lemma lifecycle_held (ops : list Lifecycle.op) :
  ∀ c,
    Lifecycle.handle c ≠ None →
    Lifecycle.created (Lifecycle.run ops c) = Lifecycle.created c ∧
    Lifecycle.handle (Lifecycle.run ops c) ≠ None.
Proof.
  unfold Lifecycle.run.
  induction ops as [|o ops IH]; intros c Hc; [done|].
  cbn [fold_left].
  assert (Lifecycle.created (Lifecycle.step c o) = Lifecycle.created c ∧
          Lifecycle.handle (Lifecycle.step c o) ≠ None) as [Hcr Hh].
  { destruct c as [[s|] n]; [|done]. by destruct o. }
  destruct (IH _ Hh) as [IHcr IHh]. split; [congruence | done].
Qed.

Lemma lifecycle_closed (ops : list Lifecycle.op) :
  ∀ c,
    Lifecycle.handle c = Some Lifecycle.Closed →
    Lifecycle.handle (Lifecycle.run ops c) = Some Lifecycle.Closed.
Proof.
  unfold Lifecycle.run.
  induction ops as [|o ops IH]; intros c Hc; [done|].
  cbn [fold_left]. apply IH.
  destruct c as [h n]. simpl in Hc. subst h. by destruct o.
Qed.

Lemma lifecycle_get_held (ops : list Lifecycle.op) :
  ∀ c,
    Lifecycle.GetSession ∈ ops →
    Lifecycle.handle (Lifecycle.run ops c) ≠ None.
Proof.
  induction ops as [|o ops IH]; intros c Hget; [by apply elem_of_nil in Hget|].
  change (Lifecycle.run (o :: ops) c) with (Lifecycle.run ops (Lifecycle.step c o)).
  destruct (Lifecycle.handle (Lifecycle.step c o)) as [s|] eqn:Hstep.
  - apply lifecycle_held. by rewrite Hstep.
  - apply IH. apply elem_of_cons in Hget as [<-|Hget]; [|done].
    destruct c as [[s|] n]; discriminate Hstep.
Qed.

Lemma lifecycle_one_session_count (ops : list Lifecycle.op) :
  Lifecycle.GetSession ∈ ops →
  Lifecycle.created (Lifecycle.run ops Lifecycle.init) = 1%nat.
Proof.
  induction ops as [|o ops IH]; intros Hget; [by apply elem_of_nil in Hget|].
  destruct o.
  - change (Lifecycle.run (Lifecycle.GetSession :: ops) Lifecycle.init)
      with (Lifecycle.run ops (Lifecycle.Client (Some Lifecycle.Open) 1)).
    by destruct (lifecycle_held ops (Lifecycle.Client (Some Lifecycle.Open) 1))
      as [-> _].
  - apply IH. by apply elem_of_cons in Hget as [?|?].
  - apply IH. by apply elem_of_cons in Hget as [?|?].
Qed.

(** X17.  Starting from a fresh client, no sequence of [get_session],
    [close] and [cleanup] calls constructs more than one session, and
    one is constructed exactly when [get_session] is called at all:
    closing never leads to a second session. *)
Theorem lifecycle_one_session (ops : list Lifecycle.op) :
  (Lifecycle.created (Lifecycle.run ops Lifecycle.init) ≤ 1)%nat ∧
  (Lifecycle.created (Lifecycle.run ops Lifecycle.init) = 1%nat
   ↔ Lifecycle.GetSession ∈ ops).
Proof.
  induction ops as [|o ops IH].
  - split; [simpl; lia|]. split; [done | by intros ?%elem_of_nil].
  - destruct o.
    + change (Lifecycle.run (Lifecycle.GetSession :: ops) Lifecycle.init)
        with (Lifecycle.run ops (Lifecycle.Client (Some Lifecycle.Open) 1)).
      destruct (lifecycle_held ops (Lifecycle.Client (Some Lifecycle.Open) 1))
        as [-> _]; [done|].
      split; [simpl; lia|]. split; [intros _; apply list_elem_of_here | done].
    + change (Lifecycle.run (Lifecycle.Close :: ops) Lifecycle.init)
        with (Lifecycle.run ops Lifecycle.init).
      destruct IH as [IH1 IH2]. split; [done|]. rewrite IH2.
      split; [apply list_elem_of_further|].
      by intros [?|?]%elem_of_cons.
    + change (Lifecycle.run (Lifecycle.Cleanup :: ops) Lifecycle.init)
        with (Lifecycle.run ops Lifecycle.init).
      destruct IH as [IH1 IH2]. split; [done|]. rewrite IH2.
      split; [apply list_elem_of_further|].
      by intros [?|?]%elem_of_cons.
Qed.

(** X18.  [close] keeps the closed session in the client: once a held
    session has been closed, whatever is called afterwards,
    [get_session] hands back that closed session, leaves the client as
    it is and constructs no new session. *)
Theorem lifecycle_closed_forever (before after : list Lifecycle.op) :
  Lifecycle.GetSession ∈ before →
  let c := Lifecycle.run (before ++ Lifecycle.Close :: after) Lifecycle.init in
  (Lifecycle.get_session c).1 = Lifecycle.Closed ∧
  (Lifecycle.get_session c).2 = c ∧
  Lifecycle.created c = 1%nat.
Proof.
  intros Hget c.
  assert (Lifecycle.handle c = Some Lifecycle.Closed) as Hclosed.
  { subst c. unfold Lifecycle.run. rewrite fold_left_app. cbn [fold_left].
    apply lifecycle_closed.
    pose proof (lifecycle_get_held before Lifecycle.init Hget) as Hheld.
    unfold Lifecycle.run in Hheld.
    by destruct (fold_left Lifecycle.step before Lifecycle.init) as [[s|] n]. }
  unfold Lifecycle.get_session. rewrite Hclosed.
  repeat split.
  apply lifecycle_one_session_count. apply elem_of_app. by left.
Qed.

Lemma lifecycle_closed_forever_witness :
  (Lifecycle.get_session
     (Lifecycle.run ([Lifecycle.GetSession] ++ Lifecycle.Close :: [Lifecycle.GetSession])
        Lifecycle.init)).1 = Lifecycle.Closed.
Proof.
  refine (proj1 (lifecycle_closed_forever [Lifecycle.GetSession]
                   [Lifecycle.GetSession] _)).
  apply list_elem_of_here.
Defined.

(** ** Edges of the tools *)

(** X19.  The keyword test of [find_code_examples] stops at its first
    success and starts with "example" in the title.  A first record
    whose title holds "example" is therefore kept whatever its
    description is, even null; a first record whose title is a string
    without "example" and whose description is present and not a string
    makes the whole call answer with its error entry. *)
Theorem find_code_examples_description net t lang sc w d title rest :
  (search_docs net (example_query t lang sc) "" "en-us" 5 w).1 = VList (VDict d :: rest) →
  d !! "title" = Some (VStr title) →
  (PyStr.contains "example" (PyStr.lower title) = true →
   Forall search_record rest →
   (find_code_examples net t lang sc w).1
     = VList (VDict (<["title" := VStr title]>
                    (<["url" := default (VStr "") (d !! "url")]>
                    (<["description" := default (VStr "") (d !! "description")]>
                    (<["type" := VStr "code_example"]> ∅))))
              :: (example_entry <$> filter (λ r, keyword_in r = true) rest))) ∧
  (PyStr.contains "example" (PyStr.lower title) = false →
   ∀ v, d !! "description" = Some v → (∀ s, v ≠ VStr s) →
        (find_code_examples net t lang sc w).1
          = VList [VDict {[ "error" :=
              VStr ("Failed to find code examples: '" +:+ type_name v
                    +:+ "' object has no attribute 'lower'") ]}]).
Proof.
  intros Hsearch Htitle.
  unfold find_code_examples, bind.
  destruct (search_docs net _ "" "en-us" 5 w) as [results w']. simpl in Hsearch.
  subst results. cbn [py_iter rbind filter_examples any_keyword example_keywords py_get].
  rewrite Htitle. cbn [default from_option id py_lower rbind]. split.
  - intros -> Hrest. unfold code_example. cbn [py_get rbind].
    rewrite Htitle, (filter_examples_records rest Hrest). reflexivity.
  - intros -> v Hdesc Hv. rewrite Hdesc. cbn [default from_option id].
    destruct v as [| | |s| |]; try reflexivity. by destruct (Hv s).
Qed.

Lemma find_code_examples_description_witness :
  (find_code_examples
     (λ _, Response 200
             (inr (VDict {[ "results" :=
                     VList [VDict (<["title" := VStr "Code Examples"]>
                                  (<["description" := VNone]> ∅))] ]}))
             (inl "not read"))
     "React" "" "" w0).1
    = VList [VDict (<["title" := VStr "Code Examples"]>
                   (<["url" := VStr ""]>
                   (<["description" := VNone]>
                   (<["type" := VStr "code_example"]> ∅))))].
Proof.
  refine (proj1 (find_code_examples_description
                   (λ _, Response 200
                           (inr (VDict {[ "results" :=
                                   VList [VDict (<["title" := VStr "Code Examples"]>
                                                (<["description" := VNone]> ∅))] ]}))
                           (inl "not read"))
                   "React" "" "" w0
                   (<["title" := VStr "Code Examples"]> (<["description" := VNone]> ∅))
                   "Code Examples" [] eq_refl eq_refl) eq_refl _).
  constructor.
Defined.

(** X20.  A url that does not start with "https://" is never fetched:
    [get_documentation_content] answers with its error string and
    leaves the world as it was.  The test is on the exact characters,
    so "http://" and an upper-case scheme or host are refused too. *)
Theorem get_documentation_content_https net html_parser css_match url w :
  (¬ ∃ r, url = "https://" +:+ r) →
  get_documentation_content net html_parser css_match url w
    = ("Error: URL must be from docs.microsoft.com or learn.microsoft.com", w).
Proof.
  intros Hscheme. unfold get_documentation_content.
  assert (PyStr.startswith url "https://docs.microsoft.com" = false) as ->.
  { apply not_true_is_false. intros [r ->]%startswith_spec.
    apply Hscheme. by exists ("docs.microsoft.com" +:+ r). }
  assert (PyStr.startswith url "https://learn.microsoft.com" = false) as ->.
  { apply not_true_is_false. intros [r ->]%startswith_spec.
    apply Hscheme. by exists ("learn.microsoft.com" +:+ r). }
  reflexivity.
Qed.

Lemma get_documentation_content_https_witness :
  get_documentation_content net_page parser_page css_reference
      "HTTPS://LEARN.MICROSOFT.COM/en-us/azure" w0
    = ("Error: URL must be from docs.microsoft.com or learn.microsoft.com", w0).
Proof.
  apply (get_documentation_content_https net_page parser_page css_reference
           "HTTPS://LEARN.MICROSOFT.COM/en-us/azure" w0).
  intros H. apply startswith_spec in H. discriminate H.
Defined.

Lemma take_prefix_str (n : nat) (s : string) : ∃ rest, s = PyStr.take n s +:+ rest.
Proof.
  revert s. induction n as [|n IH]; intros s; [by exists s|].
  destruct s as [|c s]; [by exists ""|].
  destruct (IH s) as [rest Hrest]. exists rest.
  cbn [PyStr.take]. rewrite str_app_cons. by f_equal.
Qed.

Lemma take_all_str (n : nat) (s : string) : (PyStr.len s ≤ n)%nat → PyStr.take n s = s.
Proof.
  unfold PyStr.len. revert s. induction n as [|n IH]; intros [|c s] Hlen; simpl in *;
    try done; try lia.
  f_equal. apply IH. lia.
Qed.

(** X21.  The cut at 5000 characters only removes the end of the text:
    the answer for a parsed page is always the beginning of the
    extracted content, and it is the whole content when that has at
    most 5000 characters. *)
Theorem get_page_content_prefix net html_parser css_match url w js html soup :
  net (Request url ∅) = Response 200 js (inr html) →
  html_parser html = inr soup →
  let content := extract_content css_match soup content_selectors in
  let out := (get_page_content net html_parser css_match url w).1 in
  (∃ rest, content = out +:+ rest) ∧
  ((PyStr.len content ≤ 5000)%nat → out = content).
Proof.
  intros Hnet Hparse content out. subst out.
  rewrite (get_page_content_ok net html_parser css_match url w js html soup Hnet Hparse).
  fold content. split; [apply take_prefix_str | apply take_all_str].
Qed.

Lemma get_page_content_prefix_witness :
  (get_page_content net_page parser_page css_reference
     "https://learn.microsoft.com/en-us/azure" w0).1
    = extract_content css_reference page_with_nav content_selectors.
Proof.
  refine (proj2 (get_page_content_prefix net_page parser_page css_reference
                   "https://learn.microsoft.com/en-us/azure" w0
                   (inl "not json") "<html>" page_with_nav eq_refl eq_refl) _).
  vm_compute. lia.
Defined.
